(** * deepinfra.py: a text-to-speech client, embedded and verified

    The script resolves a credential from the environment, sends one HTTP
    POST, parses the JSON reply, extracts and decodes a base64 audio string,
    writes it to [kokoro_out.wav] and optionally plays it.

    Layout of this development:
    - [Py]      Python values the script handles: [str] as a list of code
                points, [bytes] as a list of octets, parsed JSON, truthiness;
    - [Base64]  the standard library's [base64.b64decode] (non-validating),
                and the RFC 4648 encoder used to state the round trip;
    - [Extract] [_extract_base64_audio], lines 36-66;
    - [Script]  the module body and [main], lines 10-34 and 68-96, over an
                explicit process state (stdout, network log, files,
                spawned processes). *)

From Stdlib Require Import List NArith ZArith Lia Bool String Ascii.
From Stdlib Require Import Floats.SpecFloat DecimalString.
Import ListNotations.

Set Implicit Arguments.
Set Warnings "-register-all".

(* ================================================================== *)
(** ** Python values *)

Module Py.

(** A Python [str] is a sequence of Unicode code points. *)
Definition str := list N.

(** A Python [bytes] object is a sequence of octets, each below 256. *)
Definition bytes := list N.

Definition octets (b : bytes) : Prop := Forall (fun x => (x < 256)%N) b.

(** String literals of the source. *)
Definition lit (s : string) : str := map N_of_ascii (list_ascii_of_string s).

(** [len(s)], for [str] and [bytes] alike. *)
Definition len (s : list N) : nat := List.length s.

Definition str_eqb (a b : str) : bool :=
  if list_eq_dec N.eq_dec a b then true else false.

(** What [json.loads] / [resp.json()] can return: [None], [bool], [int],
    [float], [str], [list], and [dict] with [str] keys.  A [dict] keeps
    insertion order; it is an association list here, read by [dict_get]. *)
Inductive json : Type :=
| JNull
| JBool (b : bool)
| JInt (n : Z)
| JFloat (f : spec_float)
| JStr (s : str)
| JList (l : list json)
| JDict (d : list (str * json)).

(** [bool(x)]: [None], [False], zero, and empty containers are falsy.
    A float is falsy exactly when it compares equal to [0.0] (so both
    signed zeros are, and NaN is not). *)
Definition truthy (v : json) : bool :=
  match v with
  | JNull => false
  | JBool b => b
  | JInt n => negb (n =? 0)%Z
  | JFloat (S754_zero _) => false
  | JFloat _ => true
  | JStr s => match s with [] => false | _ => true end
  | JList l => match l with [] => false | _ => true end
  | JDict d => match d with [] => false | _ => true end
  end.

Definition is_str (v : json) : bool :=
  match v with JStr _ => true | _ => false end.
Definition is_list (v : json) : bool :=
  match v with JList _ => true | _ => false end.
Definition is_dict (v : json) : bool :=
  match v with JDict _ => true | _ => false end.

Fixpoint lookup (d : list (str * json)) (k : str) : option json :=
  match d with
  | [] => None
  | (k', v) :: d' => if str_eqb k' k then Some v else lookup d' k
  end.

(** [d.get(k)]: the value bound to [k], or [None] when there is none. *)
Definition dict_get (d : list (str * json)) (k : str) : json :=
  match lookup d k with Some v => v | None => JNull end.

(** The exceptions that can travel through the script. *)
Inductive exn : Type :=
| AttributeError
| UnboundLocalError
| ValueError
| binascii_Error
| RequestException (msg : str)
| HTTPError (msg : str)
| JSONDecodeError.

(** [isinstance(e, requests.RequestException)]: [HTTPError] is a
    subclass. *)
Definition is_RequestException (e : exn) : bool :=
  match e with RequestException _ | HTTPError _ => true | _ => false end.

(** [str(e)] for the exceptions that carry a message. *)
Definition str_of_exn (e : exn) : str :=
  match e with
  | RequestException m | HTTPError m => m
  | _ => []
  end.

(** Result of an expression that may raise. *)
Inductive result (A : Type) : Type :=
| Ok (a : A)
| Raises (e : exn).
Arguments Ok {A} a.
Arguments Raises {A} e.

End Py.
Import Py.

(* ================================================================== *)
(** ** base64 *)

Module Base64.

Local Open Scope N_scope.

Definition BASE64_PAD : N := 61.   (* '=' *)

(** [binascii]'s decoding table: the 6-bit value of an alphabet
    character, and 255 (the table's -1 stored in an unsigned char) for
    every other octet. *)
Definition table_a2b_base64 (c : N) : N :=
  if (65 <=? c) && (c <=? 90) then c - 65            (* A-Z:  0..25 *)
  else if (97 <=? c) && (c <=? 122) then c - 71      (* a-z: 26..51 *)
  else if (48 <=? c) && (c <=? 57) then c + 4        (* 0-9: 52..61 *)
  else if c =? 43 then 62                            (* +  *)
  else if c =? 47 then 63                            (* /  *)
  else 255.

(** [binascii]'s encoding table. *)
Definition table_b2a_base64 (i : N) : N :=
  nth (N.to_nat i)
      (lit "ABCDEFGHIJKLMNOPQRSTUVWXYZabcdefghijklmnopqrstuvwxyz0123456789+/")
      BASE64_PAD.

(** Storing into an [unsigned char]. *)
Definition u8 (x : N) : N := N.land x 255.

Definition emit (b : N) (r : option bytes) : option bytes :=
  option_map (cons b) r.

(** The loop of [binascii.a2b_base64] with [strict_mode] off (CPython
    3.11 and later).  [quad_pos] counts the data characters of the current
    group of four, [leftchar] holds the bits not yet written, [pads] the
    padding characters seen since the last data character.  Characters
    outside the alphabet are skipped; a padding sequence that completes a
    group ends the input ([goto done]); input that ends inside a group is
    an error, [None] here, and the bytes produced so far are dropped. *)
Fixpoint a2b_loop (ascii_data : list N) (quad_pos leftchar pads : N)
  : option bytes :=
  match ascii_data with
  | [] => if quad_pos =? 0 then Some [] else None
  | this_ch :: rest =>
    if this_ch =? BASE64_PAD then
      if 2 <=? quad_pos then
        if 4 <=? quad_pos + (pads + 1) then Some []
        else a2b_loop rest quad_pos leftchar (pads + 1)
      else a2b_loop rest quad_pos leftchar pads
    else
      let v := table_a2b_base64 this_ch in
      if 64 <=? v then a2b_loop rest quad_pos leftchar pads
      else
        match quad_pos with
        | 0 => a2b_loop rest 1 v 0
        | 1 => emit (u8 (N.lor (N.shiftl leftchar 2) (N.shiftr v 4)))
                    (a2b_loop rest 2 (N.land v 15) 0)
        | 2 => emit (u8 (N.lor (N.shiftl leftchar 4) (N.shiftr v 2)))
                    (a2b_loop rest 3 (N.land v 3) 0)
        | _ => emit (u8 (N.lor (N.shiftl leftchar 6) v))
                    (a2b_loop rest 0 0 0)
        end
  end.

Definition a2b_base64 (data : list N) : result bytes :=
  match a2b_loop data 0 0 0 with
  | Some b => Ok b
  | None => Raises binascii_Error
  end.

Definition is_ascii (c : N) : bool := c <? 128.

(** [base64.b64decode(s)] on a [str]: the string is first encoded to
    ASCII ([ValueError] when it holds a code point above 127), then handed
    to [binascii.a2b_base64]. *)
Definition b64decode (s : str) : result bytes :=
  if forallb is_ascii s then a2b_base64 s else Raises ValueError.

(** The encoder, RFC 4648 section 4 ([base64.b64encode]): the data
    characters first, then the padding. *)
Fixpoint b64chars (b : bytes) : str :=
  match b with
  | [] => []
  | [x] =>
      [ table_b2a_base64 (N.shiftr x 2);
        table_b2a_base64 (N.shiftl (N.land x 3) 4) ]
  | [x; y] =>
      [ table_b2a_base64 (N.shiftr x 2);
        table_b2a_base64 (N.lor (N.shiftl (N.land x 3) 4) (N.shiftr y 4));
        table_b2a_base64 (N.shiftl (N.land y 15) 2) ]
  | x :: y :: z :: rest =>
      [ table_b2a_base64 (N.shiftr x 2);
        table_b2a_base64 (N.lor (N.shiftl (N.land x 3) 4) (N.shiftr y 4));
        table_b2a_base64 (N.lor (N.shiftl (N.land y 15) 2) (N.shiftr z 6));
        table_b2a_base64 (N.land z 63) ] ++ b64chars rest
  end.

(** Number of [=] the encoder appends: 0, 2 or 1 for a length that is
    0, 1 or 2 modulo 3. *)
Definition npad (b : bytes) : nat := ((3 - len b mod 3) mod 3)%nat.

Definition b64encode (b : bytes) : str :=
  b64chars b ++ repeat BASE64_PAD (npad b).

End Base64.
Import Base64.

(* ================================================================== *)
(** ** Audio extraction (lines 36-66) *)

Module Extract.

Notation "x <- e ;; k" :=
  (match e with Ok x => k | Raises err => Raises err end)
  (at level 61, e at next level, right associativity, only parsing).

(** [v.get(k)]: only a [dict] has the method. *)
Definition py_get (v : json) (k : str) : result json :=
  match v with
  | JDict d => Ok (dict_get d k)
  | _ => Raises AttributeError
  end.

Definition COMMA : N := 44.

(** ["," in s] *)
Definition has_comma (s : str) : bool := existsb (N.eqb COMMA) s.

(** [s.split(",", 1)[1]], used when [s] holds a comma: what follows the
    first one. *)
Fixpoint after_first_comma (s : str) : str :=
  match s with
  | [] => []
  | c :: s' => if (c =? COMMA)%N then s' else after_first_comma s'
  end.

(** Lines 55-56. *)
Definition strip_data_url (audio_field : str) : str :=
  if has_comma audio_field then after_first_comma audio_field
  else audio_field.

(** Lines 59-61. *)
Definition fix_padding (audio_field : str) : str :=
  let pad := len audio_field mod 4 in
  match pad with
  | O => audio_field
  | _ => audio_field ++ repeat BASE64_PAD (4 - pad)
  end.

(** Lines 63-66: every exception of [b64decode] is an [Exception] and is
    turned into [None]. *)
Definition try_b64decode (audio_field : str) : option bytes :=
  match b64decode audio_field with
  | Ok b => Some b
  | Raises _ => None
  end.

(** Lines 43-49: the value of [audio_field] when line 51 is reached. *)
Definition audio_field_of (payload_dict : json) : result json :=
  audio_field <- py_get payload_dict (lit "audio") ;;
  if negb (truthy audio_field) then
    output <- py_get payload_dict (lit "output") ;;
    match output with
    | JList arr =>
        match arr with
        | JDict first :: _ => Ok (dict_get first (lit "audio"))
        | _ => Ok audio_field
        end
    | _ => Ok audio_field
    end
  else Ok audio_field.

(** Lines 51-66, on the value found. *)
Definition decode_field (audio_field : json) : option bytes :=
  if negb (truthy audio_field) || negb (is_str audio_field) then None
  else
    match audio_field with
    | JStr s => try_b64decode (fix_padding (strip_data_url s))
    | _ => None
    end.

Definition _extract_base64_audio (payload_dict : json)
  : result (option bytes) :=
  audio_field <- audio_field_of payload_dict ;;
  Ok (decode_field audio_field).

End Extract.
Import Extract.

(* ================================================================== *)
(** ** The script (lines 10-34 and 68-96) *)

Module Script.

(** *** The process and its surroundings *)

Record request := {
  req_url : str;
  req_headers : list (str * str);
  req_json : list (str * str);
  req_timeout : Z
}.

(** A [requests.Response]: [json_body] is what [resp.json()] returns,
    [None] standing for the [JSONDecodeError] it raises on a body that is
    not JSON. *)
Record response := {
  status_code : Z;
  reason : str;
  resp_url : str;
  text : str;
  json_body : option json
}.

(** [requests.post] either raises before any response exists (timeout,
    connection failure, ...) or returns the response. *)
Inductive post_outcome :=
| PostRaises (e : exn)
| PostReturns (r : response).

(** What the script reads from its surroundings. *)
Record world := {
  getenv : str -> option str;
  requests_post : request -> post_outcome;
  sys_platform : str;
  shutil_which : str -> option str
}.

(** What the script does to its surroundings. *)
Record state := {
  stdout : list str;               (* one entry per [print], newline left out *)
  network : list request;          (* requests handed to [requests.post] *)
  files : str -> option bytes;     (* the file system *)
  spawned : list (list str)        (* argument vectors of [subprocess.run] *)
}.

(** How a computation stops early. *)
Inductive halt :=
| SystemExit (code : Z)
| Uncaught (e : exn).

Inductive step (A : Type) :=
| Next (a : A)
| Stop (h : halt).
Arguments Next {A} a.
Arguments Stop {A} h.

Definition M (A : Type) := state -> step A * state.

Definition ret {A} (a : A) : M A := fun st => (Next a, st).

Definition bind {A B} (m : M A) (k : A -> M B) : M B :=
  fun st =>
    match m st with
    | (Next a, st') => k a st'
    | (Stop h, st') => (Stop h, st')
    end.

Notation "x <-- m ;; k" := (bind m (fun x => k))
  (at level 61, m at next level, right associativity).
Notation "m ;;; k" := (bind m (fun _ => k))
  (at level 61, right associativity).

Definition raise {A} (e : exn) : M A := fun st => (Stop (Uncaught e), st).

Definition sys_exit {A} (code : Z) : M A :=
  fun st => (Stop (SystemExit code), st).

Definition lift {A} (r : result A) : M A :=
  match r with Ok a => ret a | Raises e => raise e end.

(** The four effects, as state updates. *)
Definition printed (s : str) (st : state) : state :=
  {| stdout := stdout st ++ [s]; network := network st;
     files := files st; spawned := spawned st |}.

Definition sent (rq : request) (st : state) : state :=
  {| stdout := stdout st; network := network st ++ [rq];
     files := files st; spawned := spawned st |}.

Definition written (path : str) (data : bytes) (st : state) : state :=
  {| stdout := stdout st; network := network st;
     files := fun p => if str_eqb p path then Some data else files st p;
     spawned := spawned st |}.

Definition ran (argv : list str) (st : state) : state :=
  {| stdout := stdout st; network := network st;
     files := files st; spawned := spawned st ++ [argv] |}.

Definition print (s : str) : M unit := fun st => (Next tt, printed s st).

Definition post (w : world) (rq : request) : M post_outcome :=
  fun st => (Next (requests_post w rq), sent rq st).

(** [with open(path, "wb") as f: f.write(data)]: the file is created or
    truncated and holds exactly [data] afterwards. *)
Definition write_file (path : str) (data : bytes) : M unit :=
  fun st => (Next tt, written path data st).

(** [subprocess.run(argv, check=False)] *)
Definition subprocess_run (argv : list str) : M unit :=
  fun st => (Next tt, ran argv st).

(** Reading a local variable that may not have been assigned. *)
Definition load_local {A} (v : option A) : M A :=
  match v with Some a => ret a | None => raise UnboundLocalError end.

(** *** Python helpers *)

Definition NL : str := [10%N].

(** [x or y] on values that are [None] or a [str]. *)
Definition py_or (x y : option str) : option str :=
  match x with
  | Some (_ :: _) => x
  | _ => y
  end.

Definition truthy_opt (x : option str) : bool :=
  match x with Some (_ :: _) => true | _ => false end.

(** [f"{x}"] *)
Definition fmt (x : option str) : str :=
  match x with Some s => s | None => lit "None" end.

(** [not audio_bytes]: [None] and [b""] are falsy. *)
Definition no_bytes (b : option bytes) : bool :=
  match b with Some (_ :: _) => false | _ => true end.

Definition str_of_Z (n : Z) : str :=
  lit (DecimalString.NilZero.string_of_int (Z.to_int n)).

(** [Response.raise_for_status]: an [HTTPError] for a 4xx or 5xx status,
    nothing otherwise. *)
Definition raise_for_status (r : response) : option exn :=
  if (400 <=? status_code r)%Z && (status_code r <? 500)%Z then
    Some (HTTPError (str_of_Z (status_code r) ++ lit " Client Error: "
                     ++ reason r ++ lit " for url: " ++ resp_url r))
  else if (500 <=? status_code r)%Z && (status_code r <? 600)%Z then
    Some (HTTPError (str_of_Z (status_code r) ++ lit " Server Error: "
                     ++ reason r ++ lit " for url: " ++ resp_url r))
  else None.

(** *** Module level, lines 10-34 *)

Definition TEXT : str :=
  lit "Oh my god dominik. I love it when you do that. Oh my god. It's so good.".
Definition VOICE : str := lit "af_bella".
Definition FORMAT : str := lit "wav".
Definition OUTFILE : str := lit "kokoro_out." ++ FORMAT.
Definition URL : str :=
  lit "https://api.deepinfra.com/v1/inference/hexgrad/Kokoro-82M".

(** Lines 10-13. *)
Definition API_KEY (w : world) : option str :=
  py_or (getenv w (lit "DEEPINFRA_API_KEY"))
        (getenv w (lit "DEEPINFRA_API_TOKEN")).

Definition headers (key : option str) : list (str * str) :=
  [ (lit "Authorization", lit "bearer " ++ fmt key);
    (lit "Content-Type", lit "application/json") ].

Definition payload : list (str * str) :=
  [ (lit "text", TEXT); (lit "voice", VOICE); (lit "output_format", FORMAT) ].

Section WithDumps.

(** [json.dumps(data, indent=2)], the standard library's pretty-printer. *)
Variable json_dumps : json -> str.

(** *** [main], lines 68-96 *)

(** Lines 72-74: the handler, entered with [resp] bound or not. *)
Definition on_post_error (resp : option response) (e : exn) : M unit :=
  if is_RequestException e then
    r <-- load_local resp ;;
    print (lit "HTTP error: " ++ str_of_exn e ++ NL
           ++ lit "Body: " ++ firstn 500 (text r)) ;;;
    sys_exit 1
  else raise e.

(** Lines 92-96. *)
Definition playback (w : world) : M unit :=
  if str_eqb (sys_platform w) (lit "darwin")
     && truthy_opt (shutil_which w (lit "afplay"))
  then subprocess_run [lit "afplay"; OUTFILE]
  else print (lit "Open the file to listen (e.g., `open " ++ OUTFILE
              ++ lit "` on macOS).").

(** Lines 82-86, the failing branch. *)
Definition no_audio (data : json) : M unit :=
  print (lit "No decodable audio in response. Full payload follows:" ++ NL
         ++ lit " " ++ firstn 2000 (json_dumps data)) ;;;
  sys_exit 1.

(** Lines 76-96, with [resp] bound and no exception pending. *)
Definition after_post (w : world) (resp : response) : M unit :=
  match json_body resp with
  | None =>
      print (lit "Non-JSON response:" ++ NL ++ lit " "
             ++ firstn 500 (text resp)) ;;;
      sys_exit 1
  | Some data =>
      audio_bytes <-- lift (_extract_base64_audio data) ;;
      if no_bytes audio_bytes then no_audio data
      else
        write_file OUTFILE (match audio_bytes with Some b => b | None => [] end) ;;;
        print (lit "Wrote " ++ OUTFILE) ;;;
        playback w
  end.

(** The arguments of line 70. *)
Definition post_request (hdrs : list (str * str)) : request :=
  {| req_url := URL; req_headers := hdrs;
     req_json := payload; req_timeout := 60 |}.

Definition main (w : world) (hdrs : list (str * str)) : M unit :=
  reply <-- post w (post_request hdrs) ;;
  match reply with
  | PostRaises e => on_post_error None e
  | PostReturns resp =>
      match raise_for_status resp with
      | Some e => on_post_error (Some resp) e
      | None => after_post w resp
      end
  end.

(** The whole script, run as [__main__]. *)
Definition script (w : world) : M unit :=
  if negb (truthy_opt (API_KEY w)) then
    print (lit "Set DEEPINFRA_API_KEY or DEEPINFRA_API_TOKEN first.") ;;;
    sys_exit 1
  else main w (headers (API_KEY w)).

(** Exit status of the process: that of [sys.exit], 1 after an uncaught
    exception, 0 when the script runs to its end. *)
Definition exit_status (r : step unit) : Z :=
  match r with
  | Next _ => 0
  | Stop (SystemExit c) => c
  | Stop (Uncaught _) => 1
  end.

End WithDumps.

(** A process started with nothing printed, sent or spawned, on a given
    file system. *)
Definition fresh (fs : str -> option bytes) : state :=
  {| stdout := []; network := []; files := fs; spawned := [] |}.

End Script.
Import Script.

(* ================================================================== *)
(** ** Concrete runs *)

Module Samples.

Definition KEY_VAR : str := lit "DEEPINFRA_API_KEY".
Definition TOKEN_VAR : str := lit "DEEPINFRA_API_TOKEN".

Definition env_unset : str -> option str := fun _ => None.

Definition env_with (name value : str) : str -> option str :=
  fun n => if str_eqb n name then Some value else None.

Definition reply (status : Z) (body : str) (parsed : option json) : response :=
  {| status_code := status; reason := lit "-"; resp_url := URL;
     text := body; json_body := parsed |}.

Definition world_of (env : str -> option str) (r : post_outcome) : world :=
  {| getenv := env; requests_post := fun _ => r;
     sys_platform := lit "linux"; shutil_which := fun _ => None |}.

(** A pretty-printer to run the script with; the properties below hold
    for any. *)
Definition dumps_null : json -> str := fun _ => lit "null".

Definition no_files : str -> option bytes := fun _ => None.

Definition audio_dict (s : string) : json := JDict [(lit "audio", JStr (lit s))].

Definition env_k : str -> option str := env_with KEY_VAR (lit "k").

(** Status 300 with a well-formed audio reply. *)
Definition world_status_300 : world :=
  world_of env_k
    (PostReturns (reply 300 (lit "{...}") (Some (audio_dict "QUJD")))).

(** No response at all. *)
Definition world_timeout : world :=
  world_of env_k (PostRaises (RequestException (lit "Read timed out."))).

(** Status 401. *)
Definition world_status_401 : world :=
  world_of env_k (PostReturns (reply 401 (lit "denied") None)).

(** Status 200 with a given parsed body. *)
Definition world_ok (data : json) : world :=
  world_of env_k (PostReturns (reply 200 (lit "{...}") (Some data))).

(** A reply object without any audio. *)
Definition queued : list (str * json) := [(lit "status", JStr (lit "queued"))].

(** A truthy non-string [audio] next to a well-shaped [output]. *)
Definition both_fields : list (str * json) :=
  [ (lit "audio", JInt 5);
    (lit "output", JList [JDict [(lit "audio", JStr (lit "QUJD"))]]) ].

(** Only the fallback shape. *)
Definition output_only : list (str * json) :=
  [ (lit "output", JList [JDict [(lit "audio", JStr (lit "QUJD"))]]) ].

(** The state a first, successful run leaves behind. *)
Definition after_first_run : state :=
  snd (script dumps_null (world_ok (audio_dict "QUJD")) (fresh no_files)).

End Samples.
Import Samples.

(* ================================================================== *)
(** ** The response shapes, in the words of the specification *)

Module Shapes.

(** A top-level [audio] that is a non-empty string. *)
Definition top_level_audio (d : list (str * json)) (s : str) : Prop :=
  dict_get d (lit "audio") = JStr s /\ s <> [].

(** A top-level [output] that is a non-empty list whose first element is
    an object holding an [audio] string. *)
Definition output_audio (d : list (str * json)) (s : str) : Prop :=
  exists first rest,
    dict_get d (lit "output") = JList (JDict first :: rest)
    /\ dict_get first (lit "audio") = JStr s.

End Shapes.
Import Shapes.

(* ================================================================== *)
(** ** Further vocabulary and runs *)

Module Alphabet.

(** The characters [binascii] decodes: those the table maps to a six-bit
    value. *)
Definition is_b64char (c : N) : bool := (table_a2b_base64 c <? 64)%N.

(** How many output bytes the decoder may still owe to the characters
    already read, in quarter bytes: with [quad_pos] data characters of a
    group consumed, 4 * (bytes written) stays within 3 * (characters
    read) plus this. *)
Definition group_credit (quad_pos : N) : nat :=
  match quad_pos with
  | 0%N => 0
  | 1%N => 3
  | 2%N => 2
  | _ => 1
  end.

End Alphabet.
Import Alphabet.

Module MoreSamples.



(** A data URL inside the fallback shape, its payload left unpadded. *)
Definition output_data_url : json :=
  JDict [(lit "output",
          JList [JDict [(lit "audio",
                         JStr (lit "data:audio/wav;base64,QUI"))]])].

End MoreSamples.
Import MoreSamples.

(* ================================================================== *)
(** * Properties *)

Unset Implicit Arguments.




Example b64decode_QUJD : b64decode (lit "QUJD") = Ok (lit "ABC").
Proof. reflexivity. Qed.
Example b64decode_QUJ_pad : b64decode (lit "QUJ=") = Ok (lit "AB").
Proof. reflexivity. Qed.
Example b64decode_Q : b64decode (lit "Q===") = Raises binascii_Error.
Proof. reflexivity. Qed.
Example b64encode_ABC : b64encode (lit "ABC") = lit "QUJD".
Proof. reflexivity. Qed.
Example b64encode_A : b64encode (lit "A") = lit "QQ==".
Proof. reflexivity. Qed.
Example b64encode_AB : b64encode (lit "AB") = lit "QUI=".
Proof. reflexivity. Qed.


Example extract_data_url :
  _extract_base64_audio
    (JDict [(lit "audio", JStr (lit "data:audio/wav;base64,QUJD"))])
  = Ok (Some (lit "ABC")).
Proof. reflexivity. Qed.

Example extract_output_shape :
  _extract_base64_audio
    (JDict [(lit "output", JList [JDict [(lit "audio", JStr (lit "QUJD"))]])])
  = Ok (Some (lit "ABC")).
Proof. reflexivity. Qed.

Example extract_unpadded :
  _extract_base64_audio (JDict [(lit "audio", JStr (lit "QUI"))])
  = Ok (Some (lit "AB")).
Proof. reflexivity. Qed.

(* ------------------------------------------------------------------ *)
(** ** Running the script *)

Ltac run_script :=
  cbv [script main after_post on_post_error no_audio playback bind ret
       raise sys_exit lift print post write_file subprocess_run load_local].

Section ScriptFacts.

Variable json_dumps : json -> str.

(** With a credential resolved, the script is [main] with the headers
    built from it. *)
Lemma script_resolved w st :
  truthy_opt (API_KEY w) = true ->
  script json_dumps w st = main json_dumps w (headers (API_KEY w)) st.
Proof.
  intros H. unfold script. now rewrite H.
Qed.

Lemma script_unresolved w st :
  truthy_opt (API_KEY w) = false ->
  script json_dumps w st =
  (Stop (SystemExit 1),
   printed (lit "Set DEEPINFRA_API_KEY or DEEPINFRA_API_TOKEN first.") st).
Proof.
  intros H. unfold script. now rewrite H.
Qed.

(** Which credential is resolved: the first variable when it is set and
    not empty, the second otherwise. *)
Lemma py_or_first (x y : option str) : truthy_opt x = true -> py_or x y = x.
Proof. destruct x as [[|c s]|]; simpl; congruence. Qed.

Lemma py_or_second (x y : option str) : truthy_opt x = false -> py_or x y = y.
Proof. destruct x as [[|c s]|]; simpl; congruence. Qed.

Lemma truthy_opt_Some (t : str) : t <> [] -> truthy_opt (Some t) = true.
Proof. destruct t; simpl; congruence. Qed.

(** [main] sends exactly one request, whatever happens next. *)
Lemma main_network w hdrs st :
  network (snd (main json_dumps w hdrs st)) = network st ++ [post_request hdrs].
Proof.
  run_script.
  destruct (requests_post w (post_request hdrs)) as [e|resp].
  - destruct (is_RequestException e); reflexivity.
  - destruct (raise_for_status resp) as [e|].
    + destruct (is_RequestException e); reflexivity.
    + destruct (json_body resp) as [data|]; [|reflexivity].
      destruct (_extract_base64_audio data) as [ab|e]; [|reflexivity].
      destruct (no_bytes ab); [reflexivity|].
      destruct (str_eqb _ _ && _); reflexivity.
Qed.

(** The file system is only touched by a run that reaches line 88, and
    such a run ends normally. *)
Lemma main_stops_files w hdrs st h :
  fst (main json_dumps w hdrs st) = Stop h ->
  files (snd (main json_dumps w hdrs st)) = files st.
Proof.
  run_script.
  destruct (requests_post w (post_request hdrs)) as [e|resp].
  - destruct (is_RequestException e); reflexivity.
  - destruct (raise_for_status resp) as [e|].
    + destruct (is_RequestException e); reflexivity.
    + destruct (json_body resp) as [data|]; [|reflexivity].
      destruct (_extract_base64_audio data) as [ab|e]; [|reflexivity].
      destruct (no_bytes ab); [reflexivity|].
      destruct (str_eqb _ _ && _); simpl; discriminate.
Qed.

(** The outcome of lines 76-86 when extraction gives nothing to write. *)
Lemma after_post_no_audio w resp data ab st :
  json_body resp = Some data ->
  _extract_base64_audio data = Ok ab ->
  no_bytes ab = true ->
  after_post json_dumps w resp st = no_audio json_dumps data st.
Proof.
  intros Hj He Hn. unfold after_post. rewrite Hj, He. cbv [lift bind ret].
  now rewrite Hn.
Qed.

Lemma no_audio_run data st :
  no_audio json_dumps data st =
  (Stop (SystemExit 1),
   printed (lit "No decodable audio in response. Full payload follows:"
            ++ NL ++ lit " " ++ firstn 2000 (json_dumps data)) st).
Proof. reflexivity. Qed.

(** [main] when the POST returned a response that [raise_for_status]
    accepts. *)
Lemma main_returns w hdrs resp st :
  requests_post w (post_request hdrs) = PostReturns resp ->
  raise_for_status resp = None ->
  main json_dumps w hdrs st =
  after_post json_dumps w resp (sent (post_request hdrs) st).
Proof.
  intros Hp Hr. cbv [main bind post]. now rewrite Hp, Hr.
Qed.

End ScriptFacts.

(* ------------------------------------------------------------------ *)
(** ** Credential and request *)

(** C3. When neither [DEEPINFRA_API_KEY] nor [DEEPINFRA_API_TOKEN] holds
    a non-empty value (each is unset or the empty string), the script
    prints its hint and exits with status 1, and nothing has been handed
    to [requests.post]: the network log is what it was. *)
Theorem missing_credential_exits_before_network
    (json_dumps : json -> str) (w : world) (st : state) :
  (getenv w (lit "DEEPINFRA_API_KEY") = None
   \/ getenv w (lit "DEEPINFRA_API_KEY") = Some []) ->
  (getenv w (lit "DEEPINFRA_API_TOKEN") = None
   \/ getenv w (lit "DEEPINFRA_API_TOKEN") = Some []) ->
  script json_dumps w st =
    (Stop (SystemExit 1),
     printed (lit "Set DEEPINFRA_API_KEY or DEEPINFRA_API_TOKEN first.") st)
  /\ exit_status (fst (script json_dumps w st)) <> 0%Z
  /\ network (snd (script json_dumps w st)) = network st.
Proof.
  intros Hk Ht.
  assert (Hu : truthy_opt (API_KEY w) = false).
  { unfold API_KEY. destruct Hk as [-> | ->], Ht as [-> | ->]; reflexivity. }
  rewrite (script_unresolved json_dumps w st Hu).
  repeat split. simpl. discriminate.
Qed.

Lemma missing_credential_witness :
  exit_status (fst (script dumps_null (world_of env_unset (PostRaises ValueError))
                           (fresh no_files))) <> 0%Z.
Proof.
  apply (missing_credential_exits_before_network dumps_null
           (world_of env_unset (PostRaises ValueError)) (fresh no_files));
    left; reflexivity.
Defined.

(** C8. For every non-empty token that the script resolves -- the value
    of [DEEPINFRA_API_KEY], or that of [DEEPINFRA_API_TOKEN] when the
    first variable is unset or empty -- the one request handed to
    [requests.post] carries the header [Authorization] with the value
    [bearer], a space, and the token. *)
Theorem authorization_header_is_bearer_token
    (json_dumps : json -> str) (w : world) (st : state) (token : str) :
  token <> [] ->
  (getenv w (lit "DEEPINFRA_API_KEY") = Some token
   \/ (truthy_opt (getenv w (lit "DEEPINFRA_API_KEY")) = false
       /\ getenv w (lit "DEEPINFRA_API_TOKEN") = Some token)) ->
  network (snd (script json_dumps w st)) =
  network st ++
    [ {| req_url := URL;
         req_headers := [ (lit "Authorization", lit "bearer " ++ token);
                          (lit "Content-Type", lit "application/json") ];
         req_json := payload;
         req_timeout := 60 |} ].
Proof.
  intros Hne Hsrc.
  assert (Hkey : API_KEY w = Some token).
  { unfold API_KEY. destruct Hsrc as [Hk | [Hk Ht]].
    - rewrite Hk. apply py_or_first. now apply truthy_opt_Some.
    - now rewrite (py_or_second _ _ Hk). }
  rewrite script_resolved by (rewrite Hkey; now apply truthy_opt_Some).
  rewrite main_network, Hkey. reflexivity.
Qed.

Lemma authorization_header_witness :
  network (snd (script dumps_null
                  (world_of (env_with TOKEN_VAR (lit "s3cret"))
                            (PostRaises ValueError))
                  (fresh no_files))) =
  [ {| req_url := URL;
       req_headers := [ (lit "Authorization", lit "bearer s3cret");
                        (lit "Content-Type", lit "application/json") ];
       req_json := payload;
       req_timeout := 60 |} ].
Proof.
  apply (authorization_header_is_bearer_token dumps_null
           (world_of (env_with TOKEN_VAR (lit "s3cret")) (PostRaises ValueError))
           (fresh no_files) (lit "s3cret")).
  - discriminate.
  - right. split; reflexivity.
Defined.

(* ------------------------------------------------------------------ *)
(** ** Transport errors *)

(** [raise_for_status] raises exactly on the statuses 400..599. *)
Lemma raise_for_status_error (r : response) :
  (400 <= status_code r < 600)%Z ->
  exists msg, raise_for_status r = Some (HTTPError msg).
Proof.
  intros [Hlo Hhi]. unfold raise_for_status.
  destruct (Z.ltb_spec (status_code r) 500).
  - rewrite (proj2 (Z.leb_le _ _) Hlo). simpl. eauto.
  - rewrite (proj2 (Z.leb_le _ _) Hlo). simpl.
    replace (500 <=? status_code r)%Z with true by (symmetry; apply Z.leb_le; lia).
    replace (status_code r <? 600)%Z with true by (symmetry; apply Z.ltb_lt; lia).
    simpl. eauto.
Qed.

Lemma raise_for_status_pass (r : response) :
  (status_code r < 400 \/ 600 <= status_code r)%Z ->
  raise_for_status r = None.
Proof.
  intros H. unfold raise_for_status.
  destruct (Z.leb_spec 400 (status_code r)); simpl.
  - replace (status_code r <? 500)%Z with false by (symmetry; apply Z.ltb_ge; lia).
    replace (status_code r <? 600)%Z with false by (symmetry; apply Z.ltb_ge; lia).
    now rewrite andb_false_r.
  - replace (500 <=? status_code r)%Z with false by (symmetry; apply Z.leb_gt; lia).
    reflexivity.
Qed.

(** C1, as the code has it.  When a credential is resolved and the POST
    returns a response whose status is 4xx or 5xx, the script prints
    [HTTP error: <error>], a newline, [Body: ] and the first 500
    characters of the response body, then exits with status 1.  The
    outcome does not mention [json_body]: nothing is parsed or extracted,
    and no file is touched. *)
Theorem http_error_status_reported
    (json_dumps : json -> str) (w : world) (st : state) (resp : response) :
  truthy_opt (API_KEY w) = true ->
  requests_post w (post_request (headers (API_KEY w))) = PostReturns resp ->
  (400 <= status_code resp < 600)%Z ->
  exists msg,
    raise_for_status resp = Some (HTTPError msg)
    /\ script json_dumps w st =
       (Stop (SystemExit 1),
        printed (lit "HTTP error: " ++ msg ++ NL
                 ++ lit "Body: " ++ firstn 500 (text resp))
                (sent (post_request (headers (API_KEY w))) st))
    /\ exit_status (fst (script json_dumps w st)) = 1%Z
    /\ len (firstn 500 (text resp)) <= 500.
Proof.
  intros Hkey Hpost Hstatus.
  destruct (raise_for_status_error resp Hstatus) as [msg Hmsg].
  exists msg. split; [exact Hmsg|].
  assert (Hrun : script json_dumps w st =
                 (Stop (SystemExit 1),
                  printed (lit "HTTP error: " ++ msg ++ NL
                           ++ lit "Body: " ++ firstn 500 (text resp))
                          (sent (post_request (headers (API_KEY w))) st))).
  { rewrite script_resolved by exact Hkey.
    cbv [main bind post]. rewrite Hpost, Hmsg. reflexivity. }
  rewrite Hrun. repeat split. apply firstn_le_length.
Qed.

Lemma http_error_status_witness :
  exists msg,
    script dumps_null world_status_401 (fresh no_files) =
    (Stop (SystemExit 1),
     printed (lit "HTTP error: " ++ msg ++ NL ++ lit "Body: denied")
             (sent (post_request (headers (Some (lit "k")))) (fresh no_files))).
Proof.
  destruct (http_error_status_reported dumps_null world_status_401
              (fresh no_files)
              (reply 401 (lit "denied") None))
    as [msg [_ [Hrun _]]].
  - reflexivity.
  - reflexivity.
  - simpl. lia.
  - exists msg. exact Hrun.
Defined.

(** C1 as stated fails: status 300 is not a 2xx status, yet
    [raise_for_status] lets it pass, the body is parsed, the audio is
    extracted and written, and the process ends with status 0. *)
Lemma non_2xx_status_300_succeeds :
  ~ (200 <= 300 < 300)%Z
  /\ fst (script dumps_null world_status_300 (fresh no_files)) = Next tt
  /\ exit_status (fst (script dumps_null world_status_300 (fresh no_files))) = 0%Z
  /\ files (snd (script dumps_null world_status_300 (fresh no_files))) OUTFILE
     = Some (lit "ABC")
  /\ stdout (snd (script dumps_null world_status_300 (fresh no_files)))
     = [ lit "Wrote kokoro_out.wav";
         lit "Open the file to listen (e.g., `open kokoro_out.wav` on macOS)." ].
Proof.
  split; [lia|]. vm_compute. repeat split.
Qed.

(** X16. When [requests.post] raises before returning (a timeout, a refused
    connection), [resp] was never assigned: the handler's own
    [getattr(resp, 'text', '')] raises [UnboundLocalError], nothing is
    printed by the script and no [sys.exit] is reached. *)
Lemma post_raises_unbound_resp
    (json_dumps : json -> str) (w : world) (st : state) (msg : str) :
  truthy_opt (API_KEY w) = true ->
  requests_post w (post_request (headers (API_KEY w)))
    = PostRaises (RequestException msg) ->
  script json_dumps w st =
  (Stop (Uncaught UnboundLocalError),
   sent (post_request (headers (API_KEY w))) st).
Proof.
  intros Hkey Hpost. rewrite script_resolved by exact Hkey.
  cbv [main bind post]. rewrite Hpost. reflexivity.
Qed.

Example timeout_run :
  script dumps_null world_timeout (fresh no_files) =
  (Stop (Uncaught UnboundLocalError),
   sent (post_request (headers (Some (lit "k")))) (fresh no_files)).
Proof. reflexivity. Qed.

(* ------------------------------------------------------------------ *)
(** ** Failing runs and the output file *)

(** A run that reaches line 88 writes [OUTFILE] and nothing else. *)
Lemma successful_run_writes_outfile
    (json_dumps : json -> str) (w : world) (st : state) :
  fst (script json_dumps w st) = Next tt ->
  exists b, b <> []
    /\ forall p, files (snd (script json_dumps w st)) p =
                 if str_eqb p OUTFILE then Some b else files st p.
Proof.
  unfold script. destruct (truthy_opt (API_KEY w)); simpl; [|discriminate].
  run_script.
  destruct (requests_post w _) as [e|resp].
  - destruct (is_RequestException e); discriminate.
  - destruct (raise_for_status resp) as [e|].
    + destruct (is_RequestException e); discriminate.
    + destruct (json_body resp) as [data|]; [|discriminate].
      destruct (_extract_base64_audio data) as [ab|e]; [|discriminate].
      destruct ab as [[|x b]|]; simpl; try discriminate.
      intros _. exists (x :: b). split; [discriminate|].
      destruct (str_eqb _ _ && _); reflexivity.
Qed.

(** C6, as the code has it.  A run that stops early -- by [sys.exit] at
    credential resolution, after a transport error, a non-JSON body or a
    failed extraction, or by an uncaught exception -- never opens the
    output file: the file system is exactly what it was before the run,
    so no partial file appears and a file written by an earlier run stays
    in place. *)
Theorem failed_run_leaves_files_untouched
    (json_dumps : json -> str) (w : world) (st : state) (h : halt) :
  fst (script json_dumps w st) = Stop h ->
  files (snd (script json_dumps w st)) = files st.
Proof.
  unfold script. destruct (truthy_opt (API_KEY w)); simpl.
  - apply main_stops_files.
  - reflexivity.
Qed.

Lemma failed_run_witness :
  files (snd (script dumps_null world_status_401 after_first_run))
  = files after_first_run.
Proof.
  apply (failed_run_leaves_files_untouched dumps_null world_status_401
           after_first_run (SystemExit 1)).
  reflexivity.
Defined.

(** C6 as stated fails in its last part: after a first run has written
    [kokoro_out.wav], a second run that fails (here on a 401) leaves that
    file, with the first run's bytes, where it is. *)
Lemma stale_file_survives_failed_rerun :
  fst (script dumps_null (world_ok (audio_dict "QUJD")) (fresh no_files))
    = Next tt
  /\ files after_first_run OUTFILE = Some (lit "ABC")
  /\ fst (script dumps_null world_status_401 after_first_run)
     = Stop (SystemExit 1)
  /\ files (snd (script dumps_null world_status_401 after_first_run)) OUTFILE
     = Some (lit "ABC").
Proof. vm_compute. repeat split. Qed.

(* ------------------------------------------------------------------ *)
(** ** Replies without usable audio *)

Lemma decode_field_falsy (v : json) : truthy v = false -> decode_field v = None.
Proof. intros H. unfold decode_field. now rewrite H. Qed.

Lemma decode_field_not_str (v : json) : is_str v = false -> decode_field v = None.
Proof. intros H. unfold decode_field. rewrite H. now rewrite orb_true_r. Qed.

Lemma decode_field_str (s : str) :
  decode_field (JStr s) =
  match s with
  | [] => None
  | _ => try_b64decode (fix_padding (strip_data_url s))
  end.
Proof. destruct s; reflexivity. Qed.

(** The script once a 2xx-or-other accepted reply has been parsed and
    extraction found nothing to write. *)
Lemma script_no_audio
    (json_dumps : json -> str) (w : world) (st : state)
    (resp : response) (data : json) (ab : option bytes) :
  truthy_opt (API_KEY w) = true ->
  requests_post w (post_request (headers (API_KEY w))) = PostReturns resp ->
  raise_for_status resp = None ->
  json_body resp = Some data ->
  _extract_base64_audio data = Ok ab ->
  no_bytes ab = true ->
  script json_dumps w st =
  (Stop (SystemExit 1),
   printed (lit "No decodable audio in response. Full payload follows:"
            ++ NL ++ lit " " ++ firstn 2000 (json_dumps data))
           (sent (post_request (headers (API_KEY w))) st)).
Proof.
  intros Hkey Hpost Hst Hj He Hn.
  rewrite script_resolved by exact Hkey.
  rewrite (main_returns json_dumps w _ resp st Hpost Hst).
  rewrite (after_post_no_audio json_dumps w resp data ab _ Hj He Hn).
  apply no_audio_run.
Qed.

(** Extraction on an object that has neither shape. *)
Lemma extract_neither_shape (d : list (str * json)) :
  (forall s, ~ top_level_audio d s) ->
  (forall s, ~ output_audio d s) ->
  _extract_base64_audio (JDict d) = Ok None.
Proof.
  intros Htop Hout.
  unfold _extract_base64_audio, audio_field_of, py_get.
  destruct (truthy (dict_get d (lit "audio"))) eqn:Ht; simpl.
  - f_equal. destruct (dict_get d (lit "audio")) as [| | | |s| |] eqn:Ha;
      try (now apply decode_field_not_str).
    exfalso. apply (Htop s). split; [exact Ha|].
    intros ->. discriminate.
  - destruct (dict_get d (lit "output")) as [| | | | |arr|] eqn:Ho;
      try (f_equal; now apply decode_field_falsy).
    destruct arr as [|[| | | | | |first] rest];
      try (f_equal; now apply decode_field_falsy).
    f_equal.
    destruct (dict_get first (lit "audio")) as [| | | |s| |] eqn:Hf;
      try (now apply decode_field_not_str).
    exfalso. apply (Hout s). exists first, rest. now split.
Qed.

(** C2, as the code has it.  For every parsed reply that is a JSON
    object with neither a top-level non-empty [audio] string nor an
    [output] list whose first element is an object with an [audio]
    string, extraction returns [None] without raising; the script then
    prints its message followed by at most 2000 characters of
    [json.dumps(data, indent=2)] and exits with status 1. *)
Theorem object_without_audio_dumped
    (json_dumps : json -> str) (w : world) (st : state)
    (resp : response) (d : list (str * json)) :
  (forall s, ~ top_level_audio d s) ->
  (forall s, ~ output_audio d s) ->
  truthy_opt (API_KEY w) = true ->
  requests_post w (post_request (headers (API_KEY w))) = PostReturns resp ->
  raise_for_status resp = None ->
  json_body resp = Some (JDict d) ->
  _extract_base64_audio (JDict d) = Ok None
  /\ script json_dumps w st =
     (Stop (SystemExit 1),
      printed (lit "No decodable audio in response. Full payload follows:"
               ++ NL ++ lit " " ++ firstn 2000 (json_dumps (JDict d)))
              (sent (post_request (headers (API_KEY w))) st))
  /\ exit_status (fst (script json_dumps w st)) <> 0%Z
  /\ len (firstn 2000 (json_dumps (JDict d))) <= 2000.
Proof.
  intros Htop Hout Hkey Hpost Hst Hj.
  pose proof (extract_neither_shape d Htop Hout) as He.
  pose proof (script_no_audio json_dumps w st resp (JDict d) None
                Hkey Hpost Hst Hj He eq_refl) as Hrun.
  split; [exact He|]. split; [exact Hrun|]. split.
  - rewrite Hrun. simpl. discriminate.
  - apply firstn_le_length.
Qed.

Lemma object_without_audio_witness :
  _extract_base64_audio (JDict queued) = Ok None
  /\ script dumps_null (world_ok (JDict queued)) (fresh no_files) =
     (Stop (SystemExit 1),
      printed (lit "No decodable audio in response. Full payload follows:"
               ++ NL ++ lit " null")
              (sent (post_request (headers (Some (lit "k")))) (fresh no_files))).
Proof.
  destruct (object_without_audio_dumped dumps_null
              (world_ok (JDict queued)) (fresh no_files)
              (reply 200 (lit "{...}") (Some (JDict queued)))
              queued)
    as [He [Hrun _]].
  - intros s [H _]. vm_compute in H. discriminate H.
  - intros s [first [rest [H _]]]. vm_compute in H. discriminate H.
  - reflexivity.
  - reflexivity.
  - reflexivity.
  - reflexivity.
  - split; [exact He | exact Hrun].
Defined.

(** On a parsed value that is not an object, [payload_dict.get] does not
    exist. *)
Lemma extract_not_a_dict (v : json) :
  is_dict v = false -> _extract_base64_audio v = Raises AttributeError.
Proof. destruct v; simpl; intros H; try reflexivity; discriminate. Qed.

(** C2 as stated fails on a top-level value that is not an object: for
    the reply [[]] neither shape is present, yet extraction raises
    [AttributeError], and the script ends on that uncaught exception
    without having printed anything. *)
Lemma top_level_list_raises :
  _extract_base64_audio (JList []) = Raises AttributeError
  /\ script dumps_null (world_ok (JList [])) (fresh no_files) =
     (Stop (Uncaught AttributeError),
      sent (post_request (headers (Some (lit "k")))) (fresh no_files))
  /\ stdout (snd (script dumps_null (world_ok (JList [])) (fresh no_files)))
     = [].
Proof. repeat split. Qed.

(** C10. When extraction succeeds with zero bytes, the script does what
    it does when extraction finds nothing: it prints the message and the
    truncated dump, exits with status 1, and the file system is left as
    it was. *)
Theorem zero_bytes_like_missing_audio
    (json_dumps : json -> str) (w : world) (st : state)
    (resp : response) (data : json) (ab : option bytes) :
  truthy_opt (API_KEY w) = true ->
  requests_post w (post_request (headers (API_KEY w))) = PostReturns resp ->
  raise_for_status resp = None ->
  json_body resp = Some data ->
  _extract_base64_audio data = Ok ab ->
  ab = Some [] \/ ab = None ->
  script json_dumps w st =
    (Stop (SystemExit 1),
     printed (lit "No decodable audio in response. Full payload follows:"
              ++ NL ++ lit " " ++ firstn 2000 (json_dumps data))
             (sent (post_request (headers (API_KEY w))) st))
  /\ exit_status (fst (script json_dumps w st)) = 1%Z
  /\ files (snd (script json_dumps w st)) = files st.
Proof.
  intros Hkey Hpost Hst Hj He Hab.
  assert (Hn : no_bytes ab = true) by (destruct Hab as [-> | ->]; reflexivity).
  rewrite (script_no_audio json_dumps w st resp data ab Hkey Hpost Hst Hj He Hn).
  repeat split.
Qed.

Lemma zero_bytes_witness :
  _extract_base64_audio (audio_dict "data:audio/wav;base64,") = Ok (Some [])
  /\ fst (script dumps_null (world_ok (audio_dict "data:audio/wav;base64,"))
                 (fresh no_files)) = Stop (SystemExit 1)
  /\ files (snd (script dumps_null
                   (world_ok (audio_dict "data:audio/wav;base64,"))
                   (fresh no_files))) = no_files.
Proof.
  split; [reflexivity|].
  destruct (zero_bytes_like_missing_audio dumps_null
              (world_ok (audio_dict "data:audio/wav;base64,")) (fresh no_files)
              (reply 200 (lit "{...}")
                         (Some (audio_dict "data:audio/wav;base64,")))
              (audio_dict "data:audio/wav;base64,")
              (Some []))
    as [Hrun [_ Hfiles]].
  - reflexivity.
  - reflexivity.
  - reflexivity.
  - reflexivity.
  - reflexivity.
  - left. reflexivity.
  - split; [now rewrite Hrun | exact Hfiles].
Defined.

(* ------------------------------------------------------------------ *)
(** ** Where the audio string is taken from *)

(** C5, as the code has it.  When the top-level [audio] is absent or
    falsy ([None], [False], a zero, an empty string, list or object) and
    the top-level [output] is a non-empty list whose first element is an
    object with an [audio] string, that string is the one decoded:
    extraction gives what it gives on an object whose top-level [audio]
    is that string. *)
Theorem fallback_output_audio_used
    (d first : list (str * json)) (rest : list json) (s : str) :
  truthy (dict_get d (lit "audio")) = false ->
  dict_get d (lit "output") = JList (JDict first :: rest) ->
  dict_get first (lit "audio") = JStr s ->
  audio_field_of (JDict d) = Ok (JStr s)
  /\ _extract_base64_audio (JDict d) = Ok (decode_field (JStr s))
  /\ _extract_base64_audio (JDict d)
     = _extract_base64_audio (JDict [(lit "audio", JStr s)]).
Proof.
  intros Ha Ho Hf.
  assert (Hfield : audio_field_of (JDict d) = Ok (JStr s)).
  { unfold audio_field_of, py_get. rewrite Ha. simpl. now rewrite Ho, Hf. }
  split; [exact Hfield|].
  unfold _extract_base64_audio. rewrite Hfield.
  split; [reflexivity|].
  destruct s; reflexivity.
Qed.

Lemma fallback_output_witness :
  _extract_base64_audio (JDict output_only) = Ok (Some (lit "ABC")).
Proof.
  destruct (fallback_output_audio_used output_only
              [(lit "audio", JStr (lit "QUJD"))] []
              (lit "QUJD")) as [_ [H _]].
  - reflexivity.
  - reflexivity.
  - reflexivity.
  - exact H.
Defined.

(** C5 as stated fails when the top-level [audio] is truthy without
    being a string: with [audio] 5 there is no non-empty string at the
    top level and [output[0].audio] is the string [QUJD], yet the
    fallback is not consulted and extraction returns [None]. *)
Lemma truthy_non_string_audio_blocks_fallback :
  (forall s, ~ top_level_audio both_fields s)
  /\ output_audio both_fields (lit "QUJD")
  /\ decode_field (JStr (lit "QUJD")) = Some (lit "ABC")
  /\ audio_field_of (JDict both_fields) = Ok (JInt 5)
  /\ _extract_base64_audio (JDict both_fields) = Ok None.
Proof.
  split.
  { intros s [H _]. vm_compute in H. discriminate H. }
  split.
  { exists [(lit "audio", JStr (lit "QUJD"))], []. split; reflexivity. }
  repeat split.
Qed.

(* ------------------------------------------------------------------ *)
(** ** Normalisation of the audio string *)

Lemma has_comma_app (pre post : str) :
  has_comma (pre ++ COMMA :: post) = true.
Proof.
  unfold has_comma. rewrite existsb_app. cbn [existsb].
  now rewrite N.eqb_refl, orb_true_r.
Qed.

Lemma after_first_comma_app (pre post : str) :
  has_comma pre = false ->
  after_first_comma (pre ++ COMMA :: post) = post.
Proof.
  induction pre as [|c pre IH]; intros H.
  - cbn [app after_first_comma]. now rewrite N.eqb_refl.
  - change (has_comma (c :: pre)) with (N.eqb COMMA c || has_comma pre) in H.
    apply orb_false_elim in H. destruct H as [Hc Hpre].
    cbn [app after_first_comma].
    rewrite N.eqb_sym, Hc. now apply IH.
Qed.

Lemma strip_data_url_comma (pre post : str) :
  has_comma pre = false ->
  strip_data_url (pre ++ COMMA :: post) = post.
Proof.
  intros H. unfold strip_data_url.
  rewrite has_comma_app. now apply after_first_comma_app.
Qed.

Lemma strip_data_url_plain (s : str) :
  has_comma s = false -> strip_data_url s = s.
Proof. intros H. unfold strip_data_url. now rewrite H. Qed.

(** C7. When the audio string found holds a comma, everything up to and
    including the first comma is dropped, and what follows is what gets
    padded and decoded. *)
Theorem data_url_prefix_discarded (payload_dict : json) (pre post : str) :
  has_comma pre = false ->
  audio_field_of payload_dict = Ok (JStr (pre ++ COMMA :: post)) ->
  strip_data_url (pre ++ COMMA :: post) = post
  /\ _extract_base64_audio payload_dict
     = Ok (try_b64decode (fix_padding post)).
Proof.
  intros Hpre Hfield.
  pose proof (strip_data_url_comma pre post Hpre) as Hstrip.
  split; [exact Hstrip|].
  unfold _extract_base64_audio. rewrite Hfield.
  rewrite decode_field_str, Hstrip.
  destruct pre; reflexivity.
Qed.

Lemma data_url_witness :
  _extract_base64_audio (audio_dict "data:audio/wav;base64,QUJD")
  = Ok (Some (lit "ABC")).
Proof.
  destruct (data_url_prefix_discarded
              (audio_dict "data:audio/wav;base64,QUJD")
              (lit "data:audio/wav;base64") (lit "QUJD"))
    as [_ H].
  - reflexivity.
  - reflexivity.
  - exact H.
Defined.

(** What lines 59-61 append: the least number of [=] that brings the
    length to a multiple of 4. *)
Lemma fix_padding_spec (s : str) :
  fix_padding s = s ++ repeat BASE64_PAD ((4 - len s mod 4) mod 4)
  /\ len (fix_padding s) mod 4 = 0.
Proof.
  unfold fix_padding.
  pose proof (Nat.mod_upper_bound (len s) 4 ltac:(discriminate)) as Hlt.
  pose proof (Nat.div_mod_eq (len s) 4) as Hdiv.
  destruct (len s mod 4) as [|[|[|[|r]]]] eqn:Hr; try lia.
  - split; [now rewrite app_nil_r | exact Hr].
  - split; [reflexivity|]. unfold len in *. rewrite length_app, repeat_length.
    replace (List.length s + (4 - 1)) with (0 + (List.length s / 4 + 1) * 4)
      by lia.
    now rewrite Nat.Div0.mod_add.
  - split; [reflexivity|]. unfold len in *. rewrite length_app, repeat_length.
    replace (List.length s + (4 - 2)) with (0 + (List.length s / 4 + 1) * 4)
      by lia.
    now rewrite Nat.Div0.mod_add.
  - split; [reflexivity|]. unfold len in *. rewrite length_app, repeat_length.
    replace (List.length s + (4 - 3)) with (0 + (List.length s / 4 + 1) * 4)
      by lia.
    now rewrite Nat.Div0.mod_add.
Qed.

Lemma try_b64decode_raises (s : str) (e : exn) :
  b64decode s = Raises e -> try_b64decode s = None.
Proof. intros H. unfold try_b64decode. now rewrite H. Qed.

(** C4. For every string found as the audio field: what is decoded is
    the string (after any data-URL prefix is dropped) followed by the
    fewest [=] that make its length a multiple of 4; extraction returns
    without raising; and when [b64decode] raises on the padded string,
    extraction returns [None] and the script prints its diagnostic dump
    and exits with status 1. *)
Theorem padded_before_decoding_failure_is_none
    (payload_dict : json) (s : str) :
  audio_field_of payload_dict = Ok (JStr s) ->
  fix_padding (strip_data_url s)
    = strip_data_url s
      ++ repeat BASE64_PAD ((4 - len (strip_data_url s) mod 4) mod 4)
  /\ len (fix_padding (strip_data_url s)) mod 4 = 0
  /\ _extract_base64_audio payload_dict
     = Ok (match s with
           | [] => None
           | _ => try_b64decode (fix_padding (strip_data_url s))
           end)
  /\ (forall e, b64decode (fix_padding (strip_data_url s)) = Raises e ->
      _extract_base64_audio payload_dict = Ok None
      /\ forall (json_dumps : json -> str) (w : world) (st : state)
                (resp : response),
           truthy_opt (API_KEY w) = true ->
           requests_post w (post_request (headers (API_KEY w)))
             = PostReturns resp ->
           raise_for_status resp = None ->
           json_body resp = Some payload_dict ->
           script json_dumps w st =
           (Stop (SystemExit 1),
            printed (lit "No decodable audio in response. Full payload follows:"
                     ++ NL ++ lit " "
                     ++ firstn 2000 (json_dumps payload_dict))
                    (sent (post_request (headers (API_KEY w))) st))).
Proof.
  intros Hfield.
  destruct (fix_padding_spec (strip_data_url s)) as [Hpad Hlen].
  assert (Hex : _extract_base64_audio payload_dict
                = Ok (match s with
                      | [] => None
                      | _ => try_b64decode (fix_padding (strip_data_url s))
                      end)).
  { unfold _extract_base64_audio. rewrite Hfield. now rewrite decode_field_str. }
  repeat split; try assumption.
  - rewrite Hex. rewrite (try_b64decode_raises _ _ H). now destruct s.
  - intros json_dumps w st resp Hkey Hpost Hst Hj.
    assert (Hnone : _extract_base64_audio payload_dict = Ok None).
    { rewrite Hex. rewrite (try_b64decode_raises _ _ H). now destruct s. }
    exact (script_no_audio json_dumps w st resp payload_dict None
             Hkey Hpost Hst Hj Hnone eq_refl).
Qed.

Lemma padded_before_decoding_witness :
  fix_padding (lit "Q") = lit "Q==="
  /\ _extract_base64_audio (audio_dict "Q") = Ok None
  /\ fst (script dumps_null (world_ok (audio_dict "Q")) (fresh no_files))
     = Stop (SystemExit 1).
Proof.
  destruct (padded_before_decoding_failure_is_none (audio_dict "Q")
              (lit "Q")) as [Hpad [_ [_ Hfail]]].
  - reflexivity.
  - destruct (Hfail binascii_Error eq_refl) as [Hnone Hrun].
    split; [exact Hpad|]. split; [exact Hnone|].
    rewrite (Hrun dumps_null (world_ok (audio_dict "Q")) (fresh no_files)
               (reply 200 (lit "{...}") (Some (audio_dict "Q")))
               eq_refl eq_refl eq_refl eq_refl).
    reflexivity.
Defined.

(* ------------------------------------------------------------------ *)
(** ** base64: decoding what the encoder produced *)

Section Base64Facts.

Local Open Scope N_scope.

(** Checking a decidable property on every number below a bound. *)
Lemma below_cases (n : nat) (P : N -> bool) :
  forallb P (map N.of_nat (seq 0 n)) = true ->
  forall x, x < N.of_nat n -> P x = true.
Proof.
  intros Hall x Hx. rewrite forallb_forall in Hall. apply Hall.
  rewrite <- (N2Nat.id x). apply in_map. apply in_seq. lia.
Qed.

Lemma below_cases2 (n m : nat) (P : N -> N -> bool) :
  forallb (fun x => forallb (P x) (map N.of_nat (seq 0 m)))
          (map N.of_nat (seq 0 n)) = true ->
  forall x y, x < N.of_nat n -> y < N.of_nat m -> P x y = true.
Proof.
  intros Hall x y Hx Hy.
  apply (below_cases m (P x)); [|exact Hy].
  apply (below_cases n (fun x => forallb (P x) (map N.of_nat (seq 0 m))));
    assumption.
Qed.

(** The two tables are inverse on the 64 six-bit values, and no
    alphabet character is the padding character. *)
Lemma a2b_b2a (v : N) : v < 64 -> table_a2b_base64 (table_b2a_base64 v) = v.
Proof.
  intros Hv. apply N.eqb_eq.
  apply (below_cases 64
           (fun v => table_a2b_base64 (table_b2a_base64 v) =? v));
    [vm_compute; reflexivity | exact Hv].
Qed.

Lemma b2a_not_pad (v : N) : v < 64 -> (table_b2a_base64 v =? BASE64_PAD) = false.
Proof.
  intros Hv. apply negb_true_iff.
  apply (below_cases 64 (fun v => negb (table_b2a_base64 v =? BASE64_PAD)));
    [vm_compute; reflexivity | exact Hv].
Qed.

(** Every character the encoder can emit is ASCII and is not a comma;
    this holds of the padding character too. *)
Lemma b2a_plain (v : N) :
  is_ascii (table_b2a_base64 v) = true
  /\ (COMMA =? table_b2a_base64 v) = false.
Proof.
  unfold table_b2a_base64.
  set (alphabet :=
         lit "ABCDEFGHIJKLMNOPQRSTUVWXYZabcdefghijklmnopqrstuvwxyz0123456789+/").
  assert (Hall : forallb (fun c => is_ascii c && negb (COMMA =? c))
                         (BASE64_PAD :: alphabet) = true)
    by (vm_compute; reflexivity).
  rewrite forallb_forall in Hall.
  assert (Hin : In (nth (N.to_nat v) alphabet BASE64_PAD)
                   (BASE64_PAD :: alphabet)).
  { destruct (nth_in_or_default (N.to_nat v) alphabet BASE64_PAD) as [H | H].
    - now right.
    - left. now rewrite H. }
  specialize (Hall _ Hin). apply andb_true_iff in Hall.
  destruct Hall as [Ha Hc]. split; [exact Ha|].
  now apply negb_true_iff.
Qed.

(** The six-bit values the encoder looks up. *)
Lemma sextets_bounded (x y : N) :
  x < 256 -> y < 256 ->
  N.shiftr x 2 < 64
  /\ N.lor (N.shiftl (N.land x 3) 4) (N.shiftr y 4) < 64
  /\ N.lor (N.shiftl (N.land x 15) 2) (N.shiftr y 6) < 64
  /\ N.land x 63 < 64
  /\ N.shiftl (N.land x 3) 4 < 64
  /\ N.shiftl (N.land x 15) 2 < 64.
Proof.
  intros Hx Hy.
  pose proof (below_cases2 256 256
    (fun x y =>
       (N.shiftr x 2 <? 64)
       && (N.lor (N.shiftl (N.land x 3) 4) (N.shiftr y 4) <? 64)
       && (N.lor (N.shiftl (N.land x 15) 2) (N.shiftr y 6) <? 64)
       && (N.land x 63 <? 64)
       && (N.shiftl (N.land x 3) 4 <? 64)
       && (N.shiftl (N.land x 15) 2 <? 64))
    ltac:(vm_compute; reflexivity) x y Hx Hy) as H.
  cbv beta in H. rewrite !andb_true_iff in H. rewrite !N.ltb_lt in H.
  intuition.
Qed.

(** What the decoder rebuilds from them. *)
Lemma first_octet (x y : N) :
  x < 256 -> y < 256 ->
  u8 (N.lor (N.shiftl (N.shiftr x 2) 2)
            (N.shiftr (N.lor (N.shiftl (N.land x 3) 4) (N.shiftr y 4)) 4)) = x.
Proof.
  intros Hx Hy. apply N.eqb_eq.
  exact (below_cases2 256 256
    (fun x y =>
       u8 (N.lor (N.shiftl (N.shiftr x 2) 2)
                 (N.shiftr (N.lor (N.shiftl (N.land x 3) 4) (N.shiftr y 4)) 4))
       =? x)
    ltac:(vm_compute; reflexivity) x y Hx Hy).
Qed.

Lemma second_octet (x y z : N) :
  x < 256 -> y < 256 -> z < 256 ->
  u8 (N.lor (N.shiftl (N.land (N.lor (N.shiftl (N.land x 3) 4)
                                     (N.shiftr y 4)) 15) 4)
            (N.shiftr (N.lor (N.shiftl (N.land y 15) 2) (N.shiftr z 6)) 2)) = y.
Proof.
  intros Hx Hy Hz.
  (* the bits of [x] are masked away and those of [z] shifted out *)
  assert (Hl : N.land (N.lor (N.shiftl (N.land x 3) 4) (N.shiftr y 4)) 15
               = N.shiftr y 4).
  { apply N.eqb_eq.
    exact (below_cases2 256 256
      (fun x y => N.land (N.lor (N.shiftl (N.land x 3) 4) (N.shiftr y 4)) 15
                  =? N.shiftr y 4)
      ltac:(vm_compute; reflexivity) x y Hx Hy). }
  rewrite Hl. apply N.eqb_eq.
  exact (below_cases2 256 256
    (fun y z =>
       u8 (N.lor (N.shiftl (N.shiftr y 4) 4)
                 (N.shiftr (N.lor (N.shiftl (N.land y 15) 2) (N.shiftr z 6)) 2))
       =? y)
    ltac:(vm_compute; reflexivity) y z Hy Hz).
Qed.

Lemma third_octet (y z : N) :
  y < 256 -> z < 256 ->
  u8 (N.lor (N.shiftl (N.land (N.lor (N.shiftl (N.land y 15) 2)
                                     (N.shiftr z 6)) 3) 6)
            (N.land z 63)) = z.
Proof.
  intros Hy Hz. apply N.eqb_eq.
  exact (below_cases2 256 256
    (fun y z =>
       u8 (N.lor (N.shiftl (N.land (N.lor (N.shiftl (N.land y 15) 2)
                                          (N.shiftr z 6)) 3) 6)
                 (N.land z 63))
       =? z)
    ltac:(vm_compute; reflexivity) y z Hy Hz).
Qed.

(** The last group of a one-byte and of a two-byte remainder. *)
Lemma last_octet_of_one (x : N) :
  x < 256 ->
  u8 (N.lor (N.shiftl (N.shiftr x 2) 2)
            (N.shiftr (N.shiftl (N.land x 3) 4) 4)) = x.
Proof.
  intros Hx. apply N.eqb_eq.
  exact (below_cases 256
    (fun x => u8 (N.lor (N.shiftl (N.shiftr x 2) 2)
                        (N.shiftr (N.shiftl (N.land x 3) 4) 4)) =? x)
    ltac:(vm_compute; reflexivity) x Hx).
Qed.

Lemma last_octet_of_two (x y : N) :
  x < 256 -> y < 256 ->
  u8 (N.lor (N.shiftl (N.land (N.lor (N.shiftl (N.land x 3) 4)
                                     (N.shiftr y 4)) 15) 4)
            (N.shiftr (N.shiftl (N.land y 15) 2) 2)) = y.
Proof.
  intros Hx Hy. apply N.eqb_eq.
  exact (below_cases2 256 256
    (fun x y =>
       u8 (N.lor (N.shiftl (N.land (N.lor (N.shiftl (N.land x 3) 4)
                                          (N.shiftr y 4)) 15) 4)
                 (N.shiftr (N.shiftl (N.land y 15) 2) 2)) =? y)
    ltac:(vm_compute; reflexivity) x y Hx Hy).
Qed.

(** One turn of the decoder's loop on an alphabet character. *)
Lemma a2b_loop_sextet (v : N) (rest : list N) (quad_pos leftchar pads : N) :
  v < 64 ->
  a2b_loop (table_b2a_base64 v :: rest) quad_pos leftchar pads =
  match quad_pos with
  | 0 => a2b_loop rest 1 v 0
  | 1 => emit (u8 (N.lor (N.shiftl leftchar 2) (N.shiftr v 4)))
              (a2b_loop rest 2 (N.land v 15) 0)
  | 2 => emit (u8 (N.lor (N.shiftl leftchar 4) (N.shiftr v 2)))
              (a2b_loop rest 3 (N.land v 3) 0)
  | _ => emit (u8 (N.lor (N.shiftl leftchar 6) v))
              (a2b_loop rest 0 0 0)
  end.
Proof.
  intros Hv. cbn [a2b_loop].
  rewrite (b2a_not_pad v Hv), (a2b_b2a v Hv).
  now rewrite (proj2 (N.leb_gt 64 v) Hv).
Qed.

(** A full group of four characters gives back its three bytes and
    leaves the decoder where it started. *)
Lemma a2b_loop_group (x y z : N) (rest : list N) :
  x < 256 -> y < 256 -> z < 256 ->
  a2b_loop
    (table_b2a_base64 (N.shiftr x 2)
     :: table_b2a_base64 (N.lor (N.shiftl (N.land x 3) 4) (N.shiftr y 4))
     :: table_b2a_base64 (N.lor (N.shiftl (N.land y 15) 2) (N.shiftr z 6))
     :: table_b2a_base64 (N.land z 63) :: rest) 0 0 0
  = emit x (emit y (emit z (a2b_loop rest 0 0 0))).
Proof.
  intros Hx Hy Hz.
  destruct (sextets_bounded x y Hx Hy) as [H0 [H1 _]].
  destruct (sextets_bounded y z Hy Hz) as [_ [_ [H2 _]]].
  destruct (sextets_bounded z z Hz Hz) as [_ [_ [_ [H3 _]]]].
  rewrite (a2b_loop_sextet _ _ 0 0 0 H0).
  rewrite (a2b_loop_sextet _ _ 1 _ 0 H1).
  rewrite (a2b_loop_sextet _ _ 2 _ 0 H2).
  rewrite (a2b_loop_sextet _ _ 3 _ 0 H3).
  cbv iota.
  now rewrite (first_octet x y Hx Hy), (second_octet x y z Hx Hy Hz),
              (third_octet y z Hy Hz).
Qed.

End Base64Facts.

(** Induction on a byte string three bytes at a time, the way the
    encoder reads it. *)
Lemma bytes_ind3 (P : bytes -> Prop) :
  P [] ->
  (forall x, P [x]) ->
  (forall x y, P [x; y]) ->
  (forall x y z rest, P rest -> P (x :: y :: z :: rest)) ->
  forall b, P b.
Proof.
  intros H0 H1 H2 H3 b.
  assert (Hall : P b /\ (forall x, P (x :: b)) /\ (forall x y, P (x :: y :: b))).
  { induction b as [|z b [IH0 [IH1 IH2]]].
    - repeat split; auto.
    - repeat split; auto. }
  exact (proj1 Hall).
Qed.

Lemma npad_cons3 (x y z : N) (rest : bytes) :
  npad (x :: y :: z :: rest) = npad rest.
Proof.
  unfold npad, len. cbn [List.length].
  replace (S (S (S (List.length rest)))) with (List.length rest + 1 * 3)%nat
    by lia.
  now rewrite Nat.Div0.mod_add.
Qed.

Lemma b64encode_cons3 (x y z : N) (rest : bytes) :
  b64encode (x :: y :: z :: rest) =
  table_b2a_base64 (N.shiftr x 2)
  :: table_b2a_base64 (N.lor (N.shiftl (N.land x 3) 4) (N.shiftr y 4))
  :: table_b2a_base64 (N.lor (N.shiftl (N.land y 15) 2) (N.shiftr z 6))
  :: table_b2a_base64 (N.land z 63) :: b64encode rest.
Proof.
  unfold b64encode. rewrite npad_cons3. reflexivity.
Qed.

(** Decoding the encoder's output gives the bytes back. *)
Lemma a2b_loop_b64encode (b : bytes) :
  octets b -> a2b_loop (b64encode b) 0 0 0 = Some b.
Proof.
  induction b as [|x|x y|x y z rest IH] using bytes_ind3; intros Hb.
  - reflexivity.
  - inversion_clear Hb as [|? ? Hx _].
    destruct (sextets_bounded x x Hx Hx) as [H0 [_ [_ [_ [H1 _]]]]].
    change (b64encode [x])
      with [table_b2a_base64 (N.shiftr x 2);
            table_b2a_base64 (N.shiftl (N.land x 3) 4);
            BASE64_PAD; BASE64_PAD].
    rewrite (a2b_loop_sextet _ _ 0 0 0 H0).
    rewrite (a2b_loop_sextet _ _ 1 _ 0 H1).
    cbv iota. cbn [a2b_loop].
    rewrite (last_octet_of_one x Hx). reflexivity.
  - inversion_clear Hb as [|? ? Hx Hb']. inversion_clear Hb' as [|? ? Hy _].
    destruct (sextets_bounded x y Hx Hy) as [H0 [H1 _]].
    destruct (sextets_bounded y y Hy Hy) as [_ [_ [_ [_ [_ H2]]]]].
    change (b64encode [x; y])
      with [table_b2a_base64 (N.shiftr x 2);
            table_b2a_base64 (N.lor (N.shiftl (N.land x 3) 4) (N.shiftr y 4));
            table_b2a_base64 (N.shiftl (N.land y 15) 2);
            BASE64_PAD].
    rewrite (a2b_loop_sextet _ _ 0 0 0 H0).
    rewrite (a2b_loop_sextet _ _ 1 _ 0 H1).
    rewrite (a2b_loop_sextet _ _ 2 _ 0 H2).
    cbv iota. cbn [a2b_loop].
    rewrite (first_octet x y Hx Hy), (last_octet_of_two x y Hx Hy).
    reflexivity.
  - inversion_clear Hb as [|? ? Hx Hb1]. inversion_clear Hb1 as [|? ? Hy Hb2].
    inversion_clear Hb2 as [|? ? Hz Hrest].
    rewrite b64encode_cons3, (a2b_loop_group x y z _ Hx Hy Hz).
    now rewrite (IH Hrest).
Qed.

Lemma fix_padding_cons4 (a b c d : N) (s : str) :
  fix_padding (a :: b :: c :: d :: s) = a :: b :: c :: d :: fix_padding s.
Proof.
  unfold fix_padding, len. cbn [List.length].
  replace (S (S (S (S (List.length s))))) with (List.length s + 1 * 4) by lia.
  rewrite Nat.Div0.mod_add.
  destruct (List.length s mod 4); reflexivity.
Qed.

(** Lines 59-61 restore the padding the encoder would have written,
    whether none, some or all of it is present. *)
Lemma fix_padding_b64chars (b : bytes) (k : nat) :
  k <= npad b ->
  fix_padding (b64chars b ++ repeat BASE64_PAD k) = b64encode b.
Proof.
  revert k.
  induction b as [|x|x y|x y z rest IH] using bytes_ind3; intros k Hk.
  - change (npad []) with 0 in Hk. destruct k; [reflexivity | lia].
  - change (npad [x]) with 2 in Hk.
    destruct k as [|[|[|k]]]; [reflexivity | reflexivity | reflexivity | lia].
  - change (npad [x; y]) with 1 in Hk.
    destruct k as [|[|k]]; [reflexivity | reflexivity | lia].
  - rewrite npad_cons3 in Hk. rewrite b64encode_cons3.
    cbn [b64chars app]. rewrite fix_padding_cons4. now rewrite (IH k Hk).
Qed.

Lemma b64chars_plain (b : bytes) (k : nat) :
  forallb is_ascii (b64chars b ++ repeat BASE64_PAD k) = true
  /\ has_comma (b64chars b ++ repeat BASE64_PAD k) = false.
Proof.
  unfold has_comma.
  induction b as [|x|x y|x y z rest [IHa IHc]] using bytes_ind3;
    cbn [b64chars app forallb existsb];
    repeat match goal with
           | |- context [table_b2a_base64 ?v] =>
               let Ha := fresh "Ha" in
               let Hc := fresh "Hc" in
               destruct (b2a_plain v) as [Ha Hc];
               rewrite Ha, Hc; clear Ha Hc
           end;
    cbn [andb orb];
    try (split; assumption).
  all: induction k as [|k [IHa IHc]]; [split; reflexivity|].
  all: cbn [repeat forallb existsb]; rewrite IHa, IHc; split; reflexivity.
Qed.

Lemma b64chars_nonempty (b : bytes) : b <> [] -> truthy (JStr (b64chars b)) = true.
Proof.
  intros Hb. destruct b as [|x [|y [|z rest]]]; [congruence | | | ]; reflexivity.
Qed.

(* ------------------------------------------------------------------ *)
(** ** Round trip *)

(** C9, as the code has it.  For every non-empty byte string [b], when
    the top-level [audio] of the reply object is the standard base64
    encoding of [b] -- with all of its trailing [=], with some, or with
    none -- extraction returns exactly [b]. *)
Theorem extract_b64encode_roundtrip
    (d : list (str * json)) (b : bytes) (k : nat) :
  octets b ->
  b <> [] ->
  k <= npad b ->
  dict_get d (lit "audio") = JStr (b64chars b ++ repeat BASE64_PAD k) ->
  _extract_base64_audio (JDict d) = Ok (Some b).
Proof.
  intros Hoct Hne Hk Hget.
  destruct (b64chars_plain b k) as [_ Hcomma].
  destruct (b64chars_plain b (npad b)) as [Hascii _].
  assert (Htruthy : truthy (JStr (b64chars b ++ repeat BASE64_PAD k)) = true).
  { pose proof (b64chars_nonempty b Hne) as H.
    destruct (b64chars b); [discriminate H | reflexivity]. }
  unfold _extract_base64_audio, audio_field_of, py_get.
  rewrite Hget, Htruthy. cbn [negb].
  unfold decode_field. rewrite Htruthy. cbn [negb is_str orb].
  rewrite (strip_data_url_plain _ Hcomma), (fix_padding_b64chars b k Hk).
  unfold try_b64decode, b64decode, a2b_base64.
  fold (b64encode b) in Hascii. rewrite Hascii.
  now rewrite (a2b_loop_b64encode b Hoct).
Qed.

Lemma roundtrip_witness :
  _extract_base64_audio (audio_dict "QUI") = Ok (Some (lit "AB")).
Proof.
  apply (extract_b64encode_roundtrip
           [(lit "audio", JStr (lit "QUI"))] (lit "AB") 0).
  - repeat constructor.
  - discriminate.
  - vm_compute. lia.
  - reflexivity.
Defined.

(** C9 as stated fails on the empty byte string: its encoding is the
    empty string, a falsy [audio], and extraction returns [None] rather
    than [b""]. *)
Lemma empty_bytes_do_not_roundtrip :
  b64encode [] = []
  /\ _extract_base64_audio (JDict [(lit "audio", JStr (b64encode []))])
     = Ok None
  /\ _extract_base64_audio (JDict [(lit "audio", JStr (b64encode []))])
     <> Ok (Some []).
Proof.
  split; [reflexivity|]. split; [reflexivity|]. discriminate.
Qed.

(* ================================================================== *)
(** * Further properties of the script *)

(* ------------------------------------------------------------------ *)
(** ** The successful path and its neighbours *)






Lemma post_raises_witness :
  script dumps_null world_timeout (fresh no_files) =
  (Stop (Uncaught UnboundLocalError),
   sent (post_request (headers (Some (lit "k")))) (fresh no_files)).
Proof.
  apply (post_raises_unbound_resp dumps_null world_timeout (fresh no_files)
           (lit "Read timed out.")).
  - reflexivity.
  - reflexivity.
Defined.

(* ------------------------------------------------------------------ *)
(** ** Every run, whatever the surroundings *)



(** X4. The script hands exactly one request to [requests.post] when a
    credential is resolved and none otherwise, whatever the reply: there
    is no retry on any path.  The request goes to [URL] with the fixed
    payload and a 60 second timeout. *)
Theorem at_most_one_request
    (json_dumps : json -> str) (w : world) (st : state) :
  network (snd (script json_dumps w st)) =
  network st ++
    (if truthy_opt (API_KEY w)
     then [ {| req_url := URL; req_headers := headers (API_KEY w);
               req_json := payload; req_timeout := 60 |} ]
     else []).
Proof.
  destruct (truthy_opt (API_KEY w)) eqn:Hkey.
  - rewrite script_resolved by exact Hkey. apply main_network.
  - rewrite script_unresolved by exact Hkey.
    cbv [snd network printed]. now rewrite app_nil_r.
Qed.





(** X7. Running again in the same surroundings is idempotent on the
    file system: after a successful run, a second run succeeds too and
    leaves every file with the content the first run left. *)
Theorem successful_rerun_idempotent
    (json_dumps : json -> str) (w : world) (st : state) :
  fst (script json_dumps w st) = Next tt ->
  fst (script json_dumps w (snd (script json_dumps w st))) = Next tt
  /\ forall p,
       files (snd (script json_dumps w (snd (script json_dumps w st)))) p
       = files (snd (script json_dumps w st)) p.
Proof.
  unfold script. destruct (truthy_opt (API_KEY w)); cbn [negb];
    [|discriminate].
  run_script.
  destruct (requests_post w _) as [e|resp].
  - destruct (is_RequestException e); discriminate.
  - destruct (raise_for_status resp) as [e|].
    + destruct (is_RequestException e); discriminate.
    + destruct (json_body resp) as [data|]; [|discriminate].
      destruct (_extract_base64_audio data) as [[[|x b]|]|e];
        cbv [no_bytes]; try discriminate.
      destruct (str_eqb (sys_platform w) _ && _); cbn [fst snd];
        intros _; (split; [reflexivity|]); intros p;
        cbv [files ran printed written sent];
        destruct (str_eqb p OUTFILE); reflexivity.
Qed.

Lemma successful_rerun_witness :
  fst (script dumps_null (world_ok (audio_dict "QUJD")) after_first_run)
    = Next tt
  /\ files (snd (script dumps_null (world_ok (audio_dict "QUJD"))
                        after_first_run)) OUTFILE
     = files after_first_run OUTFILE.
Proof.
  destruct (successful_rerun_idempotent dumps_null
              (world_ok (audio_dict "QUJD")) (fresh no_files) eq_refl)
    as [Hfst Hfiles].
  split; [exact Hfst | exact (Hfiles OUTFILE)].
Defined.

(* ================================================================== *)
(** * Further properties of extraction *)

(* ------------------------------------------------------------------ *)
(** ** Which fields are read *)

(** X8. Extraction raises exactly on a parsed value that is not an
    object, and then it raises [AttributeError]; on every object it
    returns. *)
Theorem extract_raises_iff_not_dict (v : json) :
  (is_dict v = false <-> _extract_base64_audio v = Raises AttributeError)
  /\ (is_dict v = true <-> exists r, _extract_base64_audio v = Ok r).
Proof.
  destruct v as [| | | | | |d]; cbn [is_dict];
    try (split; split; [reflexivity | reflexivity | discriminate
                        | intros [r H]; discriminate H]).
  assert (H : exists r, _extract_base64_audio (JDict d) = Ok r).
  { unfold _extract_base64_audio, audio_field_of, py_get.
    destruct (negb (truthy (dict_get d (lit "audio")))); [|eauto].
    destruct (dict_get d (lit "output")) as [| | | | |[|[] ?]|]; eauto. }
  split; split; try discriminate; try reflexivity.
  - destruct H as [r H]. rewrite H. discriminate.
  - intros _. exact H.
Qed.

(** X9. Extraction reads the top-level [audio] and [output] of the
    reply and nothing else; and when [audio] is truthy it does not read
    [output] either, so a truthy [audio] that is not a string gives
    [None] whatever [output] holds. *)
Theorem extract_reads_two_fields (d1 d2 : list (str * json)) :
  dict_get d1 (lit "audio") = dict_get d2 (lit "audio") ->
  (truthy (dict_get d1 (lit "audio")) = true
   \/ dict_get d1 (lit "output") = dict_get d2 (lit "output")) ->
  _extract_base64_audio (JDict d1) = _extract_base64_audio (JDict d2)
  /\ (truthy (dict_get d1 (lit "audio")) = true ->
      is_str (dict_get d1 (lit "audio")) = false ->
      _extract_base64_audio (JDict d1) = Ok None).
Proof.
  intros Ha Ho.
  unfold _extract_base64_audio, audio_field_of, py_get. rewrite <- Ha.
  destruct (truthy (dict_get d1 (lit "audio"))) eqn:Ht; cbn [negb].
  - split; [reflexivity|]. intros _ Hs. f_equal.
    now apply decode_field_not_str.
  - destruct Ho as [Ho | Ho]; [discriminate Ho|]. rewrite <- Ho.
    split; [reflexivity | discriminate].
Qed.

Lemma extract_reads_two_fields_witness :
  _extract_base64_audio (JDict both_fields)
  = _extract_base64_audio (JDict [(lit "audio", JInt 5)])
  /\ _extract_base64_audio (JDict both_fields) = Ok None.
Proof.
  destruct (extract_reads_two_fields both_fields [(lit "audio", JInt 5)]
              eq_refl (or_introl eq_refl)) as [Heq Hnone].
  split; [exact Heq | exact (Hnone eq_refl eq_refl)].
Defined.

(* ------------------------------------------------------------------ *)
(** ** Padding *)

(** X10. Padding correction changes nothing on a string whose length is
    already a multiple of 4, changes every other string, and applying it
    twice is applying it once. *)
Theorem fix_padding_idempotent (s : str) :
  fix_padding (fix_padding s) = fix_padding s
  /\ (len s mod 4 = 0 <-> fix_padding s = s).
Proof.
  destruct (fix_padding_spec s) as [_ Hlen].
  split.
  - unfold fix_padding at 1. now rewrite Hlen.
  - split.
    + intros H. unfold fix_padding. now rewrite H.
    + intros H. now rewrite <- H.
Qed.

(* ------------------------------------------------------------------ *)
(** ** What the decoder can return *)

Lemma u8_lt (x : N) : (u8 x < 256)%N.
Proof.
  unfold u8. change 255%N with (N.ones 8). rewrite N.land_ones.
  apply N.mod_lt. discriminate.
Qed.

Lemma emit_Some (x : N) (r : option bytes) (b : bytes) :
  emit x r = Some b -> exists b', r = Some b' /\ b = x :: b'.
Proof.
  destruct r as [b'|]; cbn; intros H; [|discriminate].
  injection H as <-. eauto.
Qed.

(** Every byte the decoder writes is an octet, and it writes at most
    three bytes for four characters read. *)
Lemma a2b_loop_sound (s : list N) :
  forall (quad_pos leftchar pads : N) (b : bytes),
    a2b_loop s quad_pos leftchar pads = Some b ->
    octets b /\ 4 * len b <= 3 * len s + group_credit quad_pos.
Proof.
  induction s as [|c s IH]; intros q l p b H; cbn [a2b_loop] in H.
  - destruct (q =? 0)%N; [|discriminate]. injection H as <-.
    split; [constructor | cbn; lia].
  - assert (Hskip : forall q' l' p', a2b_loop s q' l' p' = Some b ->
              group_credit q' <= group_credit q + 3 ->
              octets b /\ 4 * len b <= 3 * len (c :: s) + group_credit q).
    { intros q' l' p' H' Hc. destruct (IH _ _ _ _ H') as [Ho Hl].
      split; [exact Ho|]. unfold len in *. cbn [List.length]. lia. }
    assert (Hemit : forall x q' l' p',
              emit x (a2b_loop s q' l' p') = Some b ->
              (exists y, x = u8 y) ->
              group_credit q' + 1 <= group_credit q ->
              octets b /\ 4 * len b <= 3 * len (c :: s) + group_credit q).
    { intros x q' l' p' H' [y ->] Hc.
      destruct (emit_Some _ _ _ H') as [b' [Hb' ->]].
      destruct (IH _ _ _ _ Hb') as [Ho Hl].
      split; [constructor; [apply u8_lt | exact Ho]|].
      unfold len in *. cbn [List.length]. lia. }
    destruct (c =? BASE64_PAD)%N.
    + destruct (2 <=? q)%N.
      * destruct (4 <=? q + (p + 1))%N.
        -- injection H as <-. split; [constructor | cbn; lia].
        -- apply (Hskip _ _ _ H). lia.
      * apply (Hskip _ _ _ H). lia.
    + cbv zeta in H. destruct (64 <=? table_a2b_base64 c)%N.
      * apply (Hskip _ _ _ H). lia.
      * destruct q as [|[q|[q|q|]|]].
        -- apply (Hskip _ _ _ H). cbn. lia.
        -- apply (Hemit _ _ _ _ H); [eauto | cbn; lia].
        -- apply (Hemit _ _ _ _ H); [eauto | cbn; lia].
        -- apply (Hemit _ _ _ _ H); [eauto | cbn; lia].
        -- apply (Hemit _ _ _ _ H); [eauto | cbn; lia].
        -- apply (Hemit _ _ _ _ H); [eauto | cbn; lia].
Qed.

(** X11. Whatever extraction returns is a well-formed byte string (every
    element below 256), and it is at most three quarters as long as the
    padded base64 text it was decoded from. *)
Theorem extracted_bytes_bounded (payload_dict : json) (b : bytes) :
  _extract_base64_audio payload_dict = Ok (Some b) ->
  octets b
  /\ exists s,
       audio_field_of payload_dict = Ok (JStr s)
       /\ s <> []
       /\ 4 * len b <= 3 * len (fix_padding (strip_data_url s)).
Proof.
  unfold _extract_base64_audio.
  destruct (audio_field_of payload_dict) as [v|e]; [|discriminate].
  intros H. injection H as H.
  destruct v as [| | | |s| |];
    try (rewrite decode_field_not_str in H by reflexivity; discriminate H).
  rewrite decode_field_str in H.
  destruct s as [|c s]; [discriminate H|].
  unfold try_b64decode, b64decode, a2b_base64 in H.
  destruct (forallb is_ascii _); [|discriminate H].
  destruct (a2b_loop _ 0 0 0) as [b'|] eqn:Hloop; [|discriminate H].
  injection H as <-.
  destruct (a2b_loop_sound _ _ _ _ _ Hloop) as [Ho Hl].
  split; [exact Ho|]. exists (c :: s).
  split; [reflexivity|]. split; [discriminate|].
  cbn [group_credit] in Hl. lia.
Qed.

Lemma extracted_bytes_witness :
  octets (lit "AB").
Proof.
  exact (proj1 (extracted_bytes_bounded (audio_dict "QUI") (lit "AB") eq_refl)).
Defined.

(* ------------------------------------------------------------------ *)
(** ** Data URLs, end to end *)

Lemma try_b64decode_b64encode (b : bytes) :
  octets b -> try_b64decode (b64encode b) = Some b.
Proof.
  intros Hb. unfold try_b64decode, b64decode, a2b_base64.
  destruct (b64chars_plain b (npad b)) as [Hascii _].
  fold (b64encode b) in Hascii. rewrite Hascii.
  now rewrite (a2b_loop_b64encode b Hb).
Qed.

(** Lines 51-66 on a data URL whose payload encodes [b]. *)
Lemma decode_field_data_url (pre : str) (b : bytes) (k : nat) :
  octets b -> k <= npad b -> has_comma pre = false ->
  decode_field (JStr (pre ++ COMMA :: b64chars b ++ repeat BASE64_PAD k))
  = Some b.
Proof.
  intros Hb Hk Hpre. rewrite decode_field_str.
  rewrite (strip_data_url_comma pre _ Hpre), (fix_padding_b64chars b k Hk).
  rewrite (try_b64decode_b64encode b Hb). now destruct pre.
Qed.


(** X12. The documented reply format round-trips, in either shape: when
    the audio string found is a data URL -- any prefix without a comma,
    a comma, then the base64 encoding of [b] with all, some or none of
    its padding -- extraction returns exactly [b]. *)
Theorem data_url_roundtrip
    (payload_dict : json) (pre : str) (b : bytes) (k : nat) :
  octets b ->
  k <= npad b ->
  has_comma pre = false ->
  audio_field_of payload_dict
    = Ok (JStr (pre ++ COMMA :: b64chars b ++ repeat BASE64_PAD k)) ->
  _extract_base64_audio payload_dict = Ok (Some b).
Proof.
  intros Hb Hk Hpre Hfield. unfold _extract_base64_audio.
  rewrite Hfield. now rewrite (decode_field_data_url pre b k Hb Hk Hpre).
Qed.

Lemma data_url_roundtrip_witness :
  _extract_base64_audio output_data_url = Ok (Some (lit "AB")).
Proof.
  apply (data_url_roundtrip output_data_url
           (lit "data:audio/wav;base64") (lit "AB") 0).
  - repeat constructor.
  - vm_compute. lia.
  - reflexivity.
  - reflexivity.
Defined.



(* ------------------------------------------------------------------ *)
(** ** Strings that padding cannot rescue *)

Lemma is_b64char_plain (c : N) :
  is_b64char c = true ->
  (c =? BASE64_PAD)%N = false
  /\ is_ascii c = true
  /\ (COMMA =? c)%N = false.
Proof.
  unfold is_b64char, table_a2b_base64, is_ascii, BASE64_PAD, COMMA.
  intros H.
  destruct (N.leb_spec 65 c), (N.leb_spec c 90), (N.leb_spec 97 c),
           (N.leb_spec c 122), (N.leb_spec 48 c), (N.leb_spec c 57),
           (N.eqb_spec c 43), (N.eqb_spec c 47);
    cbn [andb] in H; try discriminate H; try lia;
    (split; [apply N.eqb_neq; lia|]);
    (split; [apply N.ltb_lt; lia | apply N.eqb_neq; lia]).
Qed.

Lemma b64chars_only_plain (s : str) :
  forallb is_b64char s = true ->
  forallb is_ascii s = true /\ has_comma s = false.
Proof.
  unfold has_comma.
  induction s as [|c s IH]; cbn [forallb existsb]; [now split|].
  intros H. apply andb_true_iff in H. destruct H as [Hc Hs].
  destruct (is_b64char_plain c Hc) as [_ [Ha Hn]].
  destruct (IH Hs) as [IHa IHc]. now rewrite Ha, Hn, IHa, IHc.
Qed.

(** One turn of the decoder's loop on any alphabet character. *)
Lemma a2b_loop_b64char (c : N) (rest : list N) (quad_pos leftchar pads : N) :
  is_b64char c = true ->
  a2b_loop (c :: rest) quad_pos leftchar pads =
  match quad_pos with
  | 0 => a2b_loop rest 1 (table_a2b_base64 c) 0
  | 1 => emit (u8 (N.lor (N.shiftl leftchar 2)
                         (N.shiftr (table_a2b_base64 c) 4)))
              (a2b_loop rest 2 (N.land (table_a2b_base64 c) 15) 0)
  | 2 => emit (u8 (N.lor (N.shiftl leftchar 4)
                         (N.shiftr (table_a2b_base64 c) 2)))
              (a2b_loop rest 3 (N.land (table_a2b_base64 c) 3) 0)
  | _ => emit (u8 (N.lor (N.shiftl leftchar 6) (table_a2b_base64 c)))
              (a2b_loop rest 0 0 0)
  end%N.
Proof.
  intros Hc. destruct (is_b64char_plain c Hc) as [Hpad _].
  cbn [a2b_loop]. rewrite Hpad. cbv zeta.
  unfold is_b64char in Hc. apply N.ltb_lt in Hc.
  now rewrite (proj2 (N.leb_gt 64 _) Hc).
Qed.

(** After a single data character, padding is skipped and the input
    ends inside a group. *)
Lemma a2b_loop_pads_after_one (k : nat) (leftchar pads : N) :
  a2b_loop (repeat BASE64_PAD k) 1 leftchar pads = None.
Proof.
  induction k as [|k IH]; [reflexivity|].
  cbn [repeat a2b_loop]. exact IH.
Qed.

Lemma a2b_loop_one_extra (n : nat) :
  forall (s : str) (k : nat),
    forallb is_b64char s = true ->
    len s = 4 * n + 1 ->
    a2b_loop (s ++ repeat BASE64_PAD k) 0 0 0 = None.
Proof.
  induction n as [|n IH]; intros s k Hs Hlen;
    destruct s as [|c0 [|c1 [|c2 [|c3 s]]]];
    unfold len in Hlen; cbn [List.length] in Hlen; try lia;
    cbn [forallb] in Hs; rewrite ?andb_true_iff in Hs.
  - destruct Hs as [H0 _]. cbn [app].
    rewrite (a2b_loop_b64char _ _ 0 0 0 H0).
    apply a2b_loop_pads_after_one.
  - destruct Hs as [H0 [H1 [H2 [H3 Hs]]]]. cbn [app].
    rewrite (a2b_loop_b64char _ _ 0 0 0 H0).
    rewrite (a2b_loop_b64char _ _ 1 _ 0 H1).
    rewrite (a2b_loop_b64char _ _ 2 _ 0 H2).
    rewrite (a2b_loop_b64char _ _ 3 _ 0 H3).
    cbv iota. rewrite (IH s k Hs) by (unfold len; lia). reflexivity.
Qed.

(** X14. An audio string made of base64 alphabet characters only, whose
    length is one more than a multiple of 4, is never decoded: the three
    [=] that padding correction appends cannot complete the last group,
    [b64decode] raises, and extraction returns [None]. *)
Theorem one_extra_character_rejected (payload_dict : json) (s : str) :
  audio_field_of payload_dict = Ok (JStr s) ->
  forallb is_b64char s = true ->
  len s mod 4 = 1 ->
  fix_padding (strip_data_url s) = s ++ repeat BASE64_PAD 3
  /\ b64decode (s ++ repeat BASE64_PAD 3) = Raises binascii_Error
  /\ _extract_base64_audio payload_dict = Ok None.
Proof.
  intros Hfield Hs Hlen.
  destruct (b64chars_only_plain s Hs) as [Hascii Hcomma].
  assert (Hpad : fix_padding (strip_data_url s) = s ++ repeat BASE64_PAD 3).
  { rewrite (strip_data_url_plain s Hcomma). unfold fix_padding.
    now rewrite Hlen. }
  assert (Hdec : b64decode (s ++ repeat BASE64_PAD 3) = Raises binascii_Error).
  { unfold b64decode, a2b_base64. rewrite forallb_app, Hascii. cbn [andb].
    change (forallb is_ascii (repeat BASE64_PAD 3)) with true. cbv iota.
    rewrite (a2b_loop_one_extra (len s / 4) s 3 Hs); [reflexivity|].
    pose proof (Nat.div_mod_eq (len s) 4). lia. }
  split; [exact Hpad|]. split; [exact Hdec|].
  unfold _extract_base64_audio. rewrite Hfield, decode_field_str, Hpad.
  unfold try_b64decode. rewrite Hdec. now destruct s.
Qed.

Lemma one_extra_character_witness :
  _extract_base64_audio (audio_dict "QUJDR") = Ok None.
Proof.
  exact (proj2 (proj2 (one_extra_character_rejected (audio_dict "QUJDR")
                         (lit "QUJDR") eq_refl eq_refl eq_refl))).
Defined.

Lemma non_ascii_forallb (s : str) :
  existsb (fun c => 128 <=? c)%N s = true -> forallb is_ascii s = false.
Proof.
  induction s as [|c s IH]; cbn [existsb forallb]; [discriminate|].
  intros H. apply orb_true_iff in H. destruct H as [Hc | Hs].
  - unfold is_ascii. apply N.leb_le in Hc.
    now rewrite (proj2 (N.ltb_ge c 128) Hc).
  - rewrite (IH Hs). apply andb_false_r.
Qed.

(** X15. An audio string that still holds a code point above 127 once
    the data-URL prefix is dropped is never decoded: [b64decode] raises
    [ValueError] on it, and extraction returns [None]. *)
Theorem non_ascii_audio_rejected (payload_dict : json) (s : str) :
  audio_field_of payload_dict = Ok (JStr s) ->
  existsb (fun c => 128 <=? c)%N (strip_data_url s) = true ->
  b64decode (fix_padding (strip_data_url s)) = Raises ValueError
  /\ _extract_base64_audio payload_dict = Ok None.
Proof.
  intros Hfield Hex.
  assert (Hdec : b64decode (fix_padding (strip_data_url s)) = Raises ValueError).
  { unfold b64decode. destruct (fix_padding_spec (strip_data_url s)) as [-> _].
    now rewrite forallb_app, (non_ascii_forallb _ Hex). }
  split; [exact Hdec|].
  unfold _extract_base64_audio. rewrite Hfield, decode_field_str.
  unfold try_b64decode. rewrite Hdec. now destruct s.
Qed.

Lemma non_ascii_audio_witness :
  _extract_base64_audio (JDict [(lit "audio", JStr [81; 85; 233; 68]%N)])
  = Ok None.
Proof.
  exact (proj2 (non_ascii_audio_rejected
                  (JDict [(lit "audio", JStr [81; 85; 233; 68]%N)])
                  [81; 85; 233; 68]%N eq_refl eq_refl)).
Defined.
